(** * astro-control: camera, mount and plate-solving session

    A shallow embedding of the three Python modules of the repository,

      - [camera/svbony_camera.py]   (class [SVBonyCamera]),
      - [mount/ascom_telescope.py]  (class [AltAzTelescopeController]),
      - [plate_solver.py]           (class [PlateSolver] and [main]),

    followed by the properties of the specification that concern them.

    The Python code talks to the outside world (COM objects obtained from
    [win32com.client.Dispatch], the vendor SDK, [time.sleep], [os.system],
    the file system, astropy, OpenCV).  All of that is an _environment_: a
    function that answers each external call, given the history of the calls
    made so far.  Every external call and its answer are appended to a
    trace.  Python exceptions are an explicit outcome; [while] loops that
    poll a device take a bound on the number of iterations and report
    [Diverge] when it is exhausted.  [print] statements are left out: they
    touch neither the objects nor the devices. *)

From Stdlib Require Import String Ascii List ZArith Bool Arith Lia PrimFloat.
Import ListNotations.
Local Open Scope string_scope.
Local Open Scope list_scope.

Set Warnings "-register-all,-inexact-float".

(** ** Python values and exceptions *)

(** The values that flow through the three modules.  [PyObj h] is a foreign
    object (a COM dispatch object or an SDK camera), known only by a handle. *)
Inductive pyval : Type :=
| PyNone
| PyBool (b : bool)
| PyInt (z : Z)
| PyFloat (f : float)
| PyStr (s : string)
| PyTuple (vs : list pyval)
| PyDict (kvs : list (string * pyval))
| PyObj (h : nat).

(** Exception classes.  [KeyboardInterrupt] and [SystemExit] derive from
    [BaseException] only; the others from [Exception]. *)
Inductive exc_class : Type :=
| AttributeError
| TypeError
| ValueError
| KeyError
| NameError
| ConnectionError
| FileNotFoundError
| TimeoutError
| OSError
| UnitConversionError
| com_error
| KeyboardInterrupt
| SystemExit.

Record exn : Type := Exc { exc_cls : exc_class; exc_msg : string }.

Definition is_Exception (e : exn) : bool :=
  match exc_cls e with
  | KeyboardInterrupt | SystemExit => false
  | _ => true
  end.

Definition is_AttributeError (e : exn) : bool :=
  match exc_cls e with
  | AttributeError => true
  | _ => false
  end.

(** Truth value of an object, as [if], [while], [not], [and], [or] take it. *)
Definition truthy (v : pyval) : bool :=
  match v with
  | PyNone => false
  | PyBool b => b
  | PyInt z => negb (Z.eqb z 0)
  | PyFloat f => negb (PrimFloat.eqb f 0%float)
  | PyStr s => negb (String.eqb s "")
  | PyTuple vs => match vs with [] => false | _ => true end
  | PyDict kvs => match kvs with [] => false | _ => true end
  | PyObj _ => true
  end.

(** ** The environment: external calls, their answers, the trace *)

Inductive call : Type :=
| Dispatch (progid : pyval)                        (* win32com.client.Dispatch(progid) *)
| SdkCamera                                        (* SVBCameraSDK.Camera() *)
| GetAttr (h : nat) (name : string)                (* obj.name *)
| SetAttr (h : nat) (name : string) (v : pyval)    (* obj.name = v *)
| Invoke (h : nat) (name : string) (args : list pyval)  (* obj.name(args) *)
| Sleep (secs : pyval)                             (* time.sleep(secs) *)
| OsSystem (cmd : string)                          (* os.system(cmd) *)
| PathExists (path : string)                       (* os.path.exists(path) *)
| FitsHeader (path : string)                       (* fits.open(path)[0].header *)
| NpArray (data : pyval)                           (* np.array(data, dtype=np.uint16) *)
| ImWrite (path : pyval) (data : pyval)            (* cv2.imwrite(path, data) *)
| AstrometryUpload (api_key : pyval) (path : string)  (* astrometry.upload(path, public=False) *)
| AstrometryMonitor (api_key : pyval) (job : pyval)   (* astrometry.monitor_submission(job) *)
| SkyCoordM42.                                     (* the SkyCoord(...) expression of main *)

Inductive response : Type :=
| Ok (v : pyval)
| Err (e : exn).

Definition event : Type := (call * response)%type.

(** An environment answers a call knowing every earlier call and answer. *)
Definition Env : Type := list event -> call -> response.

(** ** Program state *)

(** The fields of the one [SVBonyCamera] instance and of the one
    [AltAzTelescopeController] instance that a program creates, and the
    trace of external calls. *)
Record world : Type := mkWorld {
  cam_use_ascom : bool;     (* camera.use_ascom *)
  cam_camera : pyval;       (* camera.camera *)
  cam_connected : bool;     (* camera.connected *)
  tel_telescope : pyval;    (* telescope.telescope *)
  trace : list event
}.

Definition log (ev : event) (w : world) : world :=
  mkWorld (cam_use_ascom w) (cam_camera w) (cam_connected w) (tel_telescope w)
          (trace w ++ [ev]).

Definition set_cam_use_ascom (b : bool) (w : world) : world :=
  mkWorld b (cam_camera w) (cam_connected w) (tel_telescope w) (trace w).

Definition set_cam_camera (v : pyval) (w : world) : world :=
  mkWorld (cam_use_ascom w) v (cam_connected w) (tel_telescope w) (trace w).

Definition set_cam_connected (b : bool) (w : world) : world :=
  mkWorld (cam_use_ascom w) (cam_camera w) b (tel_telescope w) (trace w).

Definition set_tel_telescope (v : pyval) (w : world) : world :=
  mkWorld (cam_use_ascom w) (cam_camera w) (cam_connected w) v (trace w).

(** ** The monad of Python computations *)

Inductive outcome (A : Type) : Type :=
| Ret (a : A)          (* normal completion *)
| Raise (e : exn)      (* an exception propagates *)
| Diverge.             (* the iteration bound of a polling loop ran out *)
Arguments Ret {A} a.
Arguments Raise {A} e.
Arguments Diverge {A}.

Definition M (A : Type) : Type := Env -> world -> outcome A * world.

Definition ret {A} (a : A) : M A := fun _ w => (Ret a, w).

Definition raise {A} (e : exn) : M A := fun _ w => (Raise e, w).

Definition diverge {A} : M A := fun _ w => (Diverge, w).

Definition bind {A B} (m : M A) (k : A -> M B) : M B :=
  fun env w =>
    match m env w with
    | (Ret a, w') => k a env w'
    | (Raise e, w') => (Raise e, w')
    | (Diverge, w') => (Diverge, w')
    end.

Declare Scope py_scope.
Delimit Scope py_scope with py.
Notation "x <- m ;; k" := (bind m (fun x => k))
  (at level 61, m at next level, right associativity) : py_scope.
Notation "m ;;; k" := (bind m (fun _ => k))
  (at level 61, right associativity) : py_scope.
Local Open Scope py_scope.

Definition get {A} (f : world -> A) : M A := fun _ w => (Ret (f w), w).

Definition modify (f : world -> world) : M unit := fun _ w => (Ret tt, f w).

(** One external call: ask the environment, record call and answer. *)
Definition ext (c : call) : M pyval :=
  fun env w =>
    let r := env (trace w) c in
    match r with
    | Ok v => (Ret v, log (c, r) w)
    | Err e => (Raise e, log (c, r) w)
    end.

(** [try: m  except <classes accepted by sel> as e: h e]. *)
Definition try_except {A} (m : M A) (sel : exn -> bool) (h : exn -> M A) : M A :=
  fun env w =>
    match m env w with
    | (Raise e, w') => if sel e then h e env w' else (Raise e, w')
    | r => r
    end.

(** [try: m  finally: fin].  The [finally] suite runs after normal completion
    and after an exception; an exception of the [finally] suite replaces the
    pending one. *)
Definition try_finally {A B} (m : M A) (fin : M B) : M A :=
  fun env w =>
    match m env w with
    | (Ret a, w') =>
        match fin env w' with
        | (Ret _, w'') => (Ret a, w'')
        | (Raise e, w'') => (Raise e, w'')
        | (Diverge, w'') => (Diverge, w'')
        end
    | (Raise e, w') =>
        match fin env w' with
        | (Ret _, w'') => (Raise e, w'')
        | (Raise e', w'') => (Raise e', w'')
        | (Diverge, w'') => (Diverge, w'')
        end
    | (Diverge, w') => (Diverge, w')
    end.

(** Attribute access, assignment and method call on a value held in a field:
    on a foreign object the environment answers, on anything else (here:
    [None]) the interpreter raises [AttributeError]. *)
Definition getattr (o : pyval) (name : string) : M pyval :=
  match o with
  | PyObj h => ext (GetAttr h name)
  | _ => raise (Exc AttributeError name)
  end.

Definition setattr (o : pyval) (name : string) (v : pyval) : M pyval :=
  match o with
  | PyObj h => ext (SetAttr h name v)
  | _ => raise (Exc AttributeError name)
  end.

Definition invoke (o : pyval) (name : string) (args : list pyval) : M pyval :=
  match o with
  | PyObj h => ext (Invoke h name args)
  | _ => raise (Exc AttributeError name)
  end.

(** ** mount/ascom_telescope.py *)

Module AltAzTelescopeController.

(** [__init__] *)
Definition init : M pyval :=
  modify (set_tel_telescope PyNone) ;;;
  ret PyNone.

(** [connect_to_telescope] *)
Definition connect_to_telescope : M pyval :=
  try_except
    (chooser <- ext (Dispatch (PyStr "ASCOM.Utilities.Chooser")) ;;
     setattr chooser "DeviceType" (PyStr "Telescope") ;;;
     telescope_driver <- invoke chooser "Choose" [PyNone] ;;
     if negb (truthy telescope_driver) then ret (PyBool false)
     else
       t <- ext (Dispatch telescope_driver) ;;
       modify (set_tel_telescope t) ;;;
       t <- get tel_telescope ;;
       c <- getattr t "Connected" ;;
       (if negb (truthy c)
        then (t <- get tel_telescope ;; setattr t "Connected" (PyBool true))
        else ret PyNone) ;;;
       ret (PyBool true))
    is_Exception
    (fun _ => ret (PyBool false)).

(** The loop [while self.telescope.Slewing: time.sleep(1)], at most [fuel]
    evaluations of the condition. *)
Fixpoint slewing_loop (fuel : nat) : M unit :=
  match fuel with
  | O => diverge
  | S n =>
      t <- get tel_telescope ;;
      s <- getattr t "Slewing" ;;
      if truthy s
      then ext (Sleep (PyInt 1)) ;;; slewing_loop n
      else ret tt
  end.

(** [slew_to_altaz(altitude, azimuth)] *)
Definition slew_to_altaz (fuel : nat) (altitude azimuth : pyval) : M pyval :=
  try_except
    (t <- get tel_telescope ;;
     invoke t "SlewToAltAz" [azimuth; altitude] ;;;
     slewing_loop fuel ;;;
     ret PyNone)
    is_Exception
    (fun _ => ret PyNone).

(** [disconnect_telescope] *)
Definition disconnect_telescope : M pyval :=
  t <- get tel_telescope ;;
  c <- (if truthy t then getattr t "Connected" else ret t) ;;
  if truthy c
  then (t <- get tel_telescope ;; setattr t "Connected" (PyBool false) ;;; ret PyNone)
  else ret PyNone.

End AltAzTelescopeController.

(** ** camera/svbony_camera.py *)

Module SVBonyCamera.

(** [__init__(use_ascom=True)] *)
Definition init (use_ascom : bool) : M pyval :=
  modify (set_cam_use_ascom use_ascom) ;;;
  modify (set_cam_camera PyNone) ;;;
  modify (set_cam_connected false) ;;;
  ret PyNone.

(** [connect_ascom_camera] *)
Definition connect_ascom_camera : M pyval :=
  c <- ext (Dispatch (PyStr "ASCOM.CameraDriver.Camera")) ;;
  modify (set_cam_camera c) ;;;
  c <- get cam_camera ;;
  setattr c "Connected" (PyBool true) ;;;
  modify (set_cam_connected true) ;;;
  ret PyNone.

(** [set_ascom_settings(exposure, gain)]: the assignment to [Gain] sits in
    [try ... except AttributeError]. *)
Definition set_ascom_settings (exposure gain : pyval) : M pyval :=
  c <- get cam_camera ;;
  setattr c "ExposureTime" exposure ;;;
  try_except
    (c <- get cam_camera ;; setattr c "Gain" gain)
    is_AttributeError
    (fun _ => ret PyNone) ;;;
  ret PyNone.

(** The loop [while not self.camera.ImageReady: time.sleep(0.1)]. *)
Fixpoint image_ready_loop (fuel : nat) : M unit :=
  match fuel with
  | O => diverge
  | S n =>
      c <- get cam_camera ;;
      r <- getattr c "ImageReady" ;;
      if negb (truthy r)
      then ext (Sleep (PyFloat 0.1%float)) ;;; image_ready_loop n
      else ret tt
  end.

(** [capture_ascom_image(output_file)] *)
Definition capture_ascom_image (fuel : nat) (output_file : pyval) : M pyval :=
  c <- get cam_camera ;;
  match c with
  | PyObj _ =>
      e <- getattr c "ExposureTime" ;;
      invoke c "StartExposure" [e; PyBool false] ;;;
      image_ready_loop fuel ;;;
      c <- get cam_camera ;;
      image_array <- getattr c "ImageArray" ;;
      image_data <- ext (NpArray image_array) ;;
      ext (ImWrite output_file image_data) ;;;
      ret PyNone
  | _ => raise (Exc AttributeError "StartExposure")
  end.

(** [connect_sdk_camera] *)
Definition connect_sdk_camera : M pyval :=
  c <- ext SdkCamera ;;
  modify (set_cam_camera c) ;;;
  c <- get cam_camera ;;
  invoke c "open" [] ;;;
  modify (set_cam_connected true) ;;;
  ret PyNone.

(** [set_sdk_settings(exposure, gain)] *)
Definition set_sdk_settings (exposure gain : pyval) : M pyval :=
  c <- get cam_camera ;;
  invoke c "set_exposure" [exposure] ;;;
  c <- get cam_camera ;;
  invoke c "set_gain" [gain] ;;;
  ret PyNone.

(** [capture_sdk_image(output_file)] *)
Definition capture_sdk_image (output_file : pyval) : M pyval :=
  c <- get cam_camera ;;
  frame <- invoke c "capture_frame" [] ;;
  match frame with
  | PyNone => ret PyNone
  | _ => ext (ImWrite output_file frame) ;;; ret PyNone
  end.

(** [connect_camera] *)
Definition connect_camera : M pyval :=
  a <- get cam_use_ascom ;;
  if a then connect_ascom_camera else connect_sdk_camera.

(** [configure_camera(exposure, gain)] *)
Definition configure_camera (exposure gain : pyval) : M pyval :=
  c <- get cam_connected ;;
  if negb c then raise (Exc ConnectionError "Camera not connected.")
  else
    a <- get cam_use_ascom ;;
    if a then set_ascom_settings exposure gain
    else set_sdk_settings exposure gain.

(** [capture_image(output_file="captured_image.png")] *)
Definition capture_image (fuel : nat) (output_file : pyval) : M pyval :=
  c <- get cam_connected ;;
  if negb c then raise (Exc ConnectionError "Camera not connected.")
  else
    a <- get cam_use_ascom ;;
    if a then capture_ascom_image fuel output_file
    else capture_sdk_image output_file.

(** [disconnect_camera] *)
Definition disconnect_camera : M pyval :=
  c <- get cam_connected ;;
  (if c then
     a <- get cam_use_ascom ;;
     cam <- get cam_camera ;;
     if a then setattr cam "Connected" (PyBool false)
     else invoke cam "close" []
   else ret PyNone) ;;;
  modify (set_cam_connected false) ;;;
  ret PyNone.

End SVBonyCamera.

(** ** Calling a method by name *)

(** A method of a class, as the interpreter sees it at a call site: it
    receives the positional and the keyword arguments. *)
Definition method : Type := list pyval -> list (string * pyval) -> M pyval.

Fixpoint assoc {A} (k : string) (l : list (string * A)) : option A :=
  match l with
  | [] => None
  | (k', v) :: l' => if String.eqb k k' then Some v else assoc k l'
  end.

Definition has_key {A} (k : string) (l : list (string * A)) : bool :=
  match assoc k l with Some _ => true | None => false end.

(** Binding of the arguments of a call to the parameters of a [def] (after
    [self]): [params] gives each parameter name with its default, if any.
    Too many positional arguments, a keyword that names no parameter, a
    parameter given twice and a parameter left without value are a
    [TypeError]. *)
Fixpoint bind_rest (params : list (string * option pyval))
         (kwargs : list (string * pyval)) : option (list pyval) :=
  match params with
  | [] => Some []
  | (p, d) :: ps =>
      match (match assoc p kwargs with Some v => Some v | None => d end) with
      | None => None
      | Some v =>
          match bind_rest ps kwargs with
          | Some vs => Some (v :: vs)
          | None => None
          end
      end
  end.

Fixpoint bind_args (params : list (string * option pyval))
         (args : list pyval) (kwargs : list (string * pyval)) : option (list pyval) :=
  match args, params with
  | [], _ => bind_rest params kwargs
  | _ :: _, [] => None
  | a :: args', (p, _) :: ps =>
      if has_key p kwargs then None
      else
        match bind_args ps args' kwargs with
        | Some vs => Some (a :: vs)
        | None => None
        end
  end.

Definition bind_call (fname : string) (params : list (string * option pyval))
           (args : list pyval) (kwargs : list (string * pyval)) : M (list pyval) :=
  if forallb (fun kv => has_key (fst kv) params) kwargs
  then
    match bind_args params args kwargs with
    | Some vs => ret vs
    | None => raise (Exc TypeError fname)
    end
  else raise (Exc TypeError fname).

(** A call [obj.name(...)] on an instance of a class given by its
    methods: a name the class does not define is an [AttributeError]. *)
Definition call_method (cls : list (string * method)) (name : string)
           (args : list pyval) (kwargs : list (string * pyval)) : M pyval :=
  match assoc name cls with
  | Some m => m args kwargs
  | None => raise (Exc AttributeError name)
  end.

Definition def0 (fname : string) (body : M pyval) : method :=
  fun args kwargs =>
    bind_call fname [] args kwargs ;;; body.

Definition def1 (fname : string) (p1 : string * option pyval)
           (body : pyval -> M pyval) : method :=
  fun args kwargs =>
    vs <- bind_call fname [p1] args kwargs ;;
    match vs with
    | [a] => body a
    | _ => raise (Exc TypeError fname)
    end.

Definition def2 (fname : string) (p1 p2 : string * option pyval)
           (body : pyval -> pyval -> M pyval) : method :=
  fun args kwargs =>
    vs <- bind_call fname [p1; p2] args kwargs ;;
    match vs with
    | [a; b] => body a b
    | _ => raise (Exc TypeError fname)
    end.

(** The methods that [class SVBonyCamera] defines. *)
Definition SVBonyCamera_class (fuel : nat) : list (string * method) :=
  [ ("connect_ascom_camera", def0 "connect_ascom_camera" SVBonyCamera.connect_ascom_camera);
    ("set_ascom_settings",
      def2 "set_ascom_settings" ("exposure", None) ("gain", None)
           SVBonyCamera.set_ascom_settings);
    ("capture_ascom_image",
      def1 "capture_ascom_image" ("output_file", None)
           (SVBonyCamera.capture_ascom_image fuel));
    ("connect_sdk_camera", def0 "connect_sdk_camera" SVBonyCamera.connect_sdk_camera);
    ("set_sdk_settings",
      def2 "set_sdk_settings" ("exposure", None) ("gain", None)
           SVBonyCamera.set_sdk_settings);
    ("capture_sdk_image",
      def1 "capture_sdk_image" ("output_file", None) SVBonyCamera.capture_sdk_image);
    ("connect_camera", def0 "connect_camera" SVBonyCamera.connect_camera);
    ("configure_camera",
      def2 "configure_camera" ("exposure", None) ("gain", None)
           SVBonyCamera.configure_camera);
    ("capture_image",
      def1 "capture_image" ("output_file", Some (PyStr "captured_image.png"))
           (SVBonyCamera.capture_image fuel));
    ("disconnect_camera", def0 "disconnect_camera" SVBonyCamera.disconnect_camera) ].

(** The methods that [class AltAzTelescopeController] defines. *)
Definition AltAzTelescopeController_class (fuel : nat) : list (string * method) :=
  [ ("connect_to_telescope",
      def0 "connect_to_telescope" AltAzTelescopeController.connect_to_telescope);
    ("slew_to_altaz",
      def2 "slew_to_altaz" ("altitude", None) ("azimuth", None)
           (AltAzTelescopeController.slew_to_altaz fuel));
    ("disconnect_telescope",
      def0 "disconnect_telescope" AltAzTelescopeController.disconnect_telescope) ].

(** ** plate_solver.py *)

(** [s.replace(old, new)] for a non-empty [old]: occurrences are replaced
    from left to right, without overlap.  [skip] counts the characters of
    an occurrence still to be passed over. *)
Fixpoint replace_from (old new s : string) (skip : nat) : string :=
  match s with
  | EmptyString => EmptyString
  | String c s' =>
      match skip with
      | S k => replace_from old new s' k
      | O =>
          if String.prefix old s
          then new ++ replace_from old new s' (String.length old - 1)
          else String c (replace_from old new s' 0)
      end
  end.

Definition str_replace (s old new : string) : string := replace_from old new s 0.

(** Subscription [v[k]] with a string key. *)
Definition getitem (v : pyval) (k : string) : M pyval :=
  match v with
  | PyDict kvs =>
      match assoc k kvs with
      | Some x => ret x
      | None => raise (Exc KeyError k)
      end
  | PyObj h => ext (Invoke h "__getitem__" [PyStr k])
  | _ => raise (Exc TypeError "subscript")
  end.

(** Unpacking [a, b = v]. *)
Definition unpack2 (v : pyval) : M (pyval * pyval) :=
  match v with
  | PyTuple [a; b] => ret (a, b)
  | PyTuple _ => raise (Exc ValueError "unpack")
  | _ => raise (Exc TypeError "unpack")
  end.

Module PlateSolver.

(** The fields of a [PlateSolver] instance; [api_key] is the key stored in
    [self.astrometry], which exists only for the online solver. *)
Record t : Type := mk { local_solver : bool; api_key : pyval }.

(** [__init__(api_key=None, local_solver=True)] *)
Definition init (key : pyval) (local : bool) : M t :=
  if negb local then
    if negb (truthy key)
    then raise (Exc ValueError "API key is required for Astrometry.net online solving.")
    else ret (mk local key)
  else ret (mk local PyNone).

(** [parse_wcs(wcs_file)] *)
Definition parse_wcs (wcs_file : string) : M pyval :=
  header <- ext (FitsHeader wcs_file) ;;
  ra <- getitem header "CRVAL1" ;;
  dec <- getitem header "CRVAL2" ;;
  ret (PyTuple [ra; dec]).

Definition solve_command (image_path : string) : string :=
  "solve-field --overwrite --no-plots --quiet " ++ image_path.

(** [solve_image(image_path)] *)
Definition solve_image (self : t) (image_path : string) : M pyval :=
  if local_solver self then
    ext (OsSystem (solve_command image_path)) ;;;
    let solved_wcs := str_replace image_path ".png" ".wcs" in
    e <- ext (PathExists solved_wcs) ;;
    if truthy e then parse_wcs solved_wcs
    else raise (Exc FileNotFoundError "Plate solving failed. No WCS file generated.")
  else
    job_id <- ext (AstrometryUpload (api_key self) image_path) ;;
    result <- ext (AstrometryMonitor (api_key self) job_id) ;;
    cal <- getitem result "calibration" ;;
    ra <- getitem cal "ra" ;;
    cal <- getitem result "calibration" ;;
    dec <- getitem cal "dec" ;;
    ret (PyTuple [ra; dec]).

End PlateSolver.

(** *** [main] of plate_solver.py, step by step *)

Definition output_image : string := "plate_solve_image.png".

(** Step 3: capture an image. *)
Definition main_step3 (fuel : nat) : M pyval :=
  call_method (SVBonyCamera_class fuel) "configure_camera" []
              [("exposure_ms", PyInt 2000); ("gain", PyInt 50)] ;;;
  call_method (SVBonyCamera_class fuel) "capture_image" []
              [("output_file", PyStr output_image)].

(** Step 4: perform plate solving. *)
Definition main_step4 : M (pyval * pyval) :=
  plate_solver <- PlateSolver.init PyNone true ;;
  r <- PlateSolver.solve_image plate_solver output_image ;;
  unpack2 r.

(** Step 5: the target M42 (an astropy [SkyCoord]) and the attributes that
    the message about it reads.  The expression is evaluated by astropy,
    hence by the environment; astropy refuses it, since the right
    ascension adds an angle ([hourangle]) to times ([minute], [second]):
    see [env_session]. *)
Definition main_step5 : M pyval :=
  m42 <- ext SkyCoordM42 ;;
  a <- getattr m42 "ra" ;;
  getattr a "degree" ;;;
  d <- getattr m42 "dec" ;;
  getattr d "degree" ;;;
  ret m42.

(** Step 6: slew to M42.  [ra], [dec] and [m42] are the local variables in
    scope at this point. *)
Definition main_step6 (fuel : nat) (ra dec m42 : pyval) : M pyval :=
  call_method (AltAzTelescopeController_class fuel) "slew_to_altaz" []
              [("altitude", PyFloat 90.0%float); ("azimuth", PyFloat 180.0%float)].

(** Steps 4 to 6, what follows the capture in the [try] suite. *)
Definition main_after_capture (fuel : nat) : M pyval :=
  rd <- main_step4 ;;
  m42 <- main_step5 ;;
  main_step6 fuel (fst rd) (snd rd) m42 ;;;
  ret PyNone.

(** The suite of the [try] statement. *)
Definition main_try (fuel : nat) : M pyval :=
  main_step3 fuel ;;;
  main_after_capture fuel.

(** Step 7, the suite of [finally]: cleanup. *)
Definition main_finally (fuel : nat) : M pyval :=
  call_method (SVBonyCamera_class fuel) "close_camera" [] [] ;;;
  call_method (AltAzTelescopeController_class fuel) "disconnect_telescope" [] [] ;;;
  ret PyNone.

(** [main()] *)
Definition main (fuel : nat) : M pyval :=
  SVBonyCamera.init true ;;;
  AltAzTelescopeController.init ;;;
  a <- call_method (SVBonyCamera_class fuel) "init_camera" [] [] ;;
  failed <- (if negb (truthy a) then ret true
             else
               b <- call_method (AltAzTelescopeController_class fuel)
                                "connect_to_telescope" [] [] ;;
               ret (negb (truthy b))) ;;
  if (failed : bool) then ret PyNone
  else try_finally (main_try fuel) (main_finally fuel).

(** *** The [__main__] programs of the two device modules *)

(** svbony_camera.py, with [use_ascom = True]. *)
Definition svbony_camera_main (fuel : nat) : M pyval :=
  SVBonyCamera.init true ;;;
  try_finally
    (try_except
       (call_method (SVBonyCamera_class fuel) "connect_camera" [] [] ;;;
        call_method (SVBonyCamera_class fuel) "configure_camera" []
                    [("exposure", PyFloat 2.0%float); ("gain", PyInt 50)] ;;;
        call_method (SVBonyCamera_class fuel) "capture_image" []
                    [("output_file", PyStr "svbony_captured_image.png")])
       is_Exception
       (fun _ => ret PyNone))
    (call_method (SVBonyCamera_class fuel) "disconnect_camera" [] []).

(** ascom_telescope.py *)
Definition ascom_telescope_main (fuel : nat) : M pyval :=
  AltAzTelescopeController.init ;;;
  c <- call_method (AltAzTelescopeController_class fuel) "connect_to_telescope" [] [] ;;
  if truthy c then
    try_finally
      (call_method (AltAzTelescopeController_class fuel) "slew_to_altaz" []
                   [("altitude", PyFloat 45.0%float); ("azimuth", PyFloat 90.0%float)])
      (call_method (AltAzTelescopeController_class fuel) "disconnect_telescope" [] [])
  else ret PyNone.

(** ** Reading traces *)

(** The state at the start of a program: no camera object, no mount object,
    nothing called yet. *)
Definition w0 : world := mkWorld true PyNone false PyNone [].

(** A device-level disconnect: [obj.Connected = False] on a COM object, or
    [obj.close()] on the SDK camera. *)
Definition is_disconnect (ev : event) : bool :=
  match fst ev with
  | SetAttr _ name (PyBool false) => String.eqb name "Connected"
  | Invoke _ name [] => String.eqb name "close"
  | _ => false
  end.

Definition disconnects (tr : list event) : nat :=
  List.length (List.filter is_disconnect tr).

(** A run of the local solver. *)
Definition is_solve_attempt (ev : event) : bool :=
  match fst ev with
  | OsSystem _ => true
  | AstrometryUpload _ _ => true
  | _ => false
  end.

Definition solve_attempts (tr : list event) : nat :=
  List.length (List.filter is_solve_attempt tr).

(** The slew commands sent to a mount, as (azimuth, altitude) as
    [SlewToAltAz] takes them. *)
Fixpoint slew_commands (tr : list event) : list (list pyval) :=
  match tr with
  | [] => []
  | (Invoke _ name args, _) :: tr' =>
      if String.eqb name "SlewToAltAz" then args :: slew_commands tr'
      else slew_commands tr'
  | _ :: tr' => slew_commands tr'
  end.

Definition last_event (tr : list event) : option event :=
  List.last (List.map Some tr) None.

(** ** Sample environments and states *)

(** Every external call succeeds and answers [None]. *)
Definition env_quiet : Env := fun _ _ => Ok PyNone.

(** A mount that reports motion until [k] external calls have been made. *)
Definition env_slewing (k : nat) : Env :=
  fun hist c =>
    match c with
    | GetAttr _ name =>
        if String.eqb name "Slewing" then Ok (PyBool (Nat.ltb (List.length hist) k))
        else Ok PyNone
    | _ => Ok PyNone
    end.

(** A mount that rejects every slew. *)
Definition env_reject : Env :=
  fun _ c =>
    match c with
    | Invoke _ name _ =>
        if String.eqb name "SlewToAltAz"
        then Err (Exc com_error "slew rejected")
        else Ok PyNone
    | _ => Ok PyNone
    end.

(** A mount that takes the slew and reports motion at the first reading of
    its status; from the second reading on, the link to it is lost and the
    reading raises a COM error. *)
Definition env_poll_fails : Env :=
  fun hist c =>
    match c with
    | GetAttr _ name =>
        if String.eqb name "Slewing"
        then if Nat.ltb (List.length hist) 2
             then Ok (PyBool true)
             else Err (Exc com_error "link lost")
        else Ok PyNone
    | _ => Ok PyNone
    end.

(** A state with a mount attached (handle 2), and one with a connected
    ASCOM camera (handle 3). *)
Definition w_mount : world := mkWorld true PyNone false (PyObj 2) [].

Definition w_camera : world := mkWorld true (PyObj 3) true PyNone [].

(** An ASCOM camera driver without gain: assigning [Gain] raises
    [AttributeError]. *)
Definition env_no_gain : Env :=
  fun _ c =>
    match c with
    | SetAttr _ name _ =>
        if String.eqb name "Gain" then Err (Exc AttributeError "Gain")
        else Ok PyNone
    | Invoke _ name _ =>
        if String.eqb name "set_gain" then Err (Exc AttributeError "set_gain")
        else Ok PyNone
    | _ => Ok PyNone
    end.

(** A device that fails when it is told to disconnect. *)
Definition env_disconnect_fails : Env :=
  fun _ c =>
    match c with
    | SetAttr _ name (PyBool false) =>
        if String.eqb name "Connected" then Err (Exc com_error "device unplugged")
        else Ok PyNone
    | _ => Ok PyNone
    end.

(** A solver run that leaves no WCS file behind. *)
Definition env_no_wcs : Env :=
  fun _ c =>
    match c with
    | OsSystem _ => Ok (PyInt 256)
    | PathExists _ => Ok (PyBool false)
    | _ => Ok PyNone
    end.

(** A solver run that leaves a WCS file whose header gives the position
    [(ra, dec)]. *)
Definition env_wcs (ra dec : float) : Env :=
  fun _ c =>
    match c with
    | OsSystem _ => Ok (PyInt 0)
    | PathExists _ => Ok (PyBool true)
    | FitsHeader _ => Ok (PyDict [("CRVAL1", PyFloat ra); ("CRVAL2", PyFloat dec)])
    | _ => Ok PyNone
    end.

(** The online service as the astroquery client offers it: the client has
    no method [upload], the call raises [AttributeError]. *)
Definition env_astroquery : Env :=
  fun _ c =>
    match c with
    | AstrometryUpload _ _ => Err (Exc AttributeError "upload")
    | _ => Ok PyNone
    end.

(** The message of the failed local solve. *)
Definition no_wcs : exn :=
  Exc FileNotFoundError "Plate solving failed. No WCS file generated.".

(** A connected SDK camera (handle 4). *)
Definition w_sdk_camera : world := mkWorld false (PyObj 4) true PyNone [].

(** A whole observatory in working order: the ASCOM chooser (handle 1)
    offers a simulator mount (handle 2), the camera driver is handle 3, the
    SDK camera handle 4; the mount is at rest, images are ready at once and
    the solver leaves a WCS file with the position [(ra, dec)].  astropy
    answers the target expression of [main] as it does for every run, with
    [UnitConversionError]: the expression adds [hourangle], an angle, to
    [minute] and [second], which are times. *)
Definition env_session (ra dec : float) : Env :=
  fun _ c =>
    match c with
    | Dispatch (PyStr p) =>
        if String.eqb p "ASCOM.Utilities.Chooser" then Ok (PyObj 1)
        else if String.eqb p "ASCOM.CameraDriver.Camera" then Ok (PyObj 3)
        else Ok (PyObj 2)
    | Dispatch _ => Err (Exc com_error "Dispatch")
    | SdkCamera => Ok (PyObj 4)
    | GetAttr _ name =>
        if String.eqb name "Slewing" then Ok (PyBool false)
        else if String.eqb name "ImageReady" then Ok (PyBool true)
        else if String.eqb name "Connected" then Ok (PyBool true)
        else Ok PyNone
    | Invoke _ name _ =>
        if String.eqb name "Choose" then Ok (PyStr "ASCOM.Simulator.Telescope")
        else if String.eqb name "capture_frame" then Ok (PyObj 9)
        else Ok PyNone
    | OsSystem _ => Ok (PyInt 0)
    | PathExists _ => Ok (PyBool true)
    | FitsHeader _ => Ok (PyDict [("CRVAL1", PyFloat ra); ("CRVAL2", PyFloat dec)])
    | SkyCoordM42 =>
        Err (Exc UnitConversionError "'min' (time) and 'hourangle' (angle) are not convertible")
    | _ => Ok PyNone
    end.

(** ** Vocabulary of the specification *)

(** The status that the specification lets [configure] report. *)
Inductive Spec_ConfigureStatus : Type :=
| Spec_Applied
| Spec_PartiallyApplied.

(** The specification's default bound on solve failures. *)
Definition Spec_max_solve_failures : nat := 3.

(** Whether an assignment to [Gain] was refused in a trace. *)
Definition gain_refused (tr : list event) : bool :=
  existsb (fun ev =>
             match ev with
             | (SetAttr _ name _, Err _) => String.eqb name "Gain"
             | _ => false
             end) tr.

(** The exception of the connection check of the camera. *)
Definition not_connected : exn := Exc ConnectionError "Camera not connected.".

(** The device-level disconnect of the camera held under handle [h]. *)
Definition camera_disconnect_call (use_ascom : bool) (h : nat) : call :=
  if use_ascom then SetAttr h "Connected" (PyBool false) else Invoke h "close" [].

(** What the specification asks of [configure] on the ASCOM path, for a
    reading [decode] of the outcome of the call as a status: a gain refused
    during the call ([evs] are the events of the call) shows as
    [Spec_PartiallyApplied], a call that returned with nothing refused as
    [Spec_Applied]. *)
Definition Spec_configure_reports
           (decode : outcome pyval -> Spec_ConfigureStatus) : Prop :=
  forall env w exposure gain,
    cam_connected w = true -> cam_use_ascom w = true ->
    let r := SVBonyCamera.configure_camera exposure gain env w in
    let evs := skipn (List.length (trace w)) (trace (snd r)) in
    (gain_refused evs = true -> decode (fst r) = Spec_PartiallyApplied) /\
    (gain_refused evs = false -> (exists v, fst r = Ret v) ->
     decode (fst r) = Spec_Applied).

(** ** Postconditions *)

(** [post m env w Q]: the run of [m] from [w] in [env] ends in an outcome and
    a state that satisfy [Q]. *)
Definition post {A} (m : M A) (env : Env) (w : world)
           (Q : outcome A -> world -> Prop) : Prop :=
  Q (fst (m env w)) (snd (m env w)).

(** The fields of the camera object and of the telescope object are the
    same in two states. *)
Definition same_objects (w w' : world) : Prop :=
  cam_use_ascom w' = cam_use_ascom w /\
  cam_camera w' = cam_camera w /\
  cam_connected w' = cam_connected w /\
  tel_telescope w' = tel_telescope w.

(** What [connect_camera] establishes. *)
Definition connect_camera_result (w : world) (o : outcome pyval) (w' : world) : Prop :=
  cam_use_ascom w' = cam_use_ascom w /\
  tel_telescope w' = tel_telescope w /\
  match o with
  | Ret _ => cam_connected w' = true /\ exists h, cam_camera w' = PyObj h
  | Raise _ => cam_connected w' = cam_connected w
  | Diverge => False
  end.

(** An outcome of a method that returns nothing: the value [None], or an
    exception of class [Exception], or no end. *)
Definition None_or_Exception (o : outcome pyval) : Prop :=
  match o with
  | Ret v => v = PyNone
  | Raise e => is_Exception e = true
  | Diverge => True
  end.

(** [old in s]: the string [old] occurs in [s]. *)
Fixpoint contains (old s : string) : bool :=
  match s with
  | EmptyString => String.prefix old s
  | String _ s' => String.prefix old s || contains old s'
  end.

(** Calls of the local solving strategy, and calls of the online one. *)
Definition is_local_call (ev : event) : bool :=
  match fst ev with
  | OsSystem _ | PathExists _ | FitsHeader _ => true
  | _ => false
  end.

Definition is_online_call (ev : event) : bool :=
  match fst ev with
  | AstrometryUpload _ _ | AstrometryMonitor _ _ => true
  | _ => false
  end.

(** The exception of [PlateSolver(local_solver=False)] without a key. *)
Definition no_api_key : exn :=
  Exc ValueError "API key is required for Astrometry.net online solving.".

(** ** More sample environments *)

(** Drivers that hand out a camera object (handle 3) and accept every
    call. *)
Definition env_quiet_camera : Env :=
  fun _ c =>
    match c with
    | Dispatch _ => Ok (PyObj 3)
    | SdkCamera => Ok (PyObj 4)
    | _ => Ok PyNone
    end.

(** A chooser (handle 1) in which the user selects nothing. *)
Definition env_cancel : Env :=
  fun _ c =>
    match c with
    | Dispatch _ => Ok (PyObj 1)
    | Invoke _ name _ =>
        if String.eqb name "Choose" then Ok (PyStr "") else Ok PyNone
    | _ => Ok PyNone
    end.

(** A camera driver that refuses every exposure time with a COM error and
    an SDK camera that delivers no frame. *)
Definition env_camera_fault : Env :=
  fun _ c =>
    match c with
    | SetAttr _ name _ =>
        if String.eqb name "ExposureTime"
        then Err (Exc com_error "invalid exposure")
        else Ok PyNone
    | Invoke _ name _ =>
        if String.eqb name "set_exposure"
        then Err (Exc com_error "invalid exposure")
        else Ok PyNone
    | _ => Ok PyNone
    end.

(** A solver run that leaves a WCS file without [CRVAL2]. *)
Definition env_wcs_partial : Env :=
  fun _ c =>
    match c with
    | OsSystem _ => Ok (PyInt 0)
    | PathExists _ => Ok (PyBool true)
    | FitsHeader _ => Ok (PyDict [("CRVAL1", PyFloat 83.82%float)])
    | _ => Ok PyNone
    end.

(** ** Basic facts about traces and the monad *)

Lemma ext_run (c : call) (env : Env) (w : world) :
  ext c env w =
  (match env (trace w) c with Ok v => Ret v | Err e => Raise e end,
   log (c, env (trace w) c) w).
Proof.
  unfold ext. destruct (env (trace w) c); reflexivity.
Qed.

Lemma trace_log (ev : event) (w : world) : trace (log ev w) = trace w ++ [ev].
Proof. reflexivity. Qed.

(** ** The mount: [slew_to_altaz] *)

Section Slewing.

Import AltAzTelescopeController.

(** What a run of the polling loop leaves behind: the telescope field is
    untouched, the trace has grown, and the way the loop ended can be read
    off the last event. *)
Lemma slewing_loop_trace (env : Env) :
  forall fuel w o w',
    slewing_loop fuel env w = (o, w') ->
    tel_telescope w' = tel_telescope w /\
    exists evs,
      trace w' = trace w ++ evs /\
      match o with
      | Ret _ =>
          exists h r, tel_telescope w = PyObj h /\
                      last_event evs = Some (GetAttr h "Slewing", Ok r) /\
                      truthy r = false
      | Raise e =>
          (exists c, last_event evs = Some (c, Err e)) \/
          (evs = [] /\ forall h, tel_telescope w <> PyObj h)
      | Diverge => True
      end.
Proof.
  induction fuel as [|n IH]; intros w o w' H.
  - cbn in H. inversion H; subst. split; [reflexivity|].
    exists []. rewrite app_nil_r. auto.
  - cbn [slewing_loop] in H. unfold bind, get in H. cbv beta iota in H.
    destruct (tel_telescope w) as [| | | | | | |h] eqn:Ht;
      try (cbn in H; inversion H; subst; split; [assumption|];
           exists []; rewrite app_nil_r; split; [reflexivity|];
           right; split; [reflexivity|]; intros h0; discriminate).
    unfold getattr in H. rewrite ext_run in H.
    destruct (env (trace w) (GetAttr h "Slewing")) as [r|e] eqn:Hr.
    + destruct (truthy r) eqn:Htr.
      * rewrite ext_run in H.
        set (w1 := log (GetAttr h "Slewing", Ok r) w) in *.
        destruct (env (trace w1) (Sleep (PyInt 1))) as [s|e] eqn:Hs.
        -- apply IH in H. destruct H as [Htel [evs [Htr' Ho]]].
           cbn in Htel. split; [congruence|].
           exists ((GetAttr h "Slewing", Ok r) :: (Sleep (PyInt 1), Ok s) :: evs).
           split.
           { rewrite Htr'. cbn. rewrite <- !app_assoc. reflexivity. }
           destruct o as [u|e|]; [| |exact I].
           ++ destruct Ho as [h' [r' [Hh' [Hl Hf]]]]. cbn in Hh'.
              exists h', r'. split; [congruence|]. split; [|exact Hf].
              destruct evs as [|ev evs]; [discriminate Hl|].
              exact Hl.
           ++ destruct Ho as [[c Hl]|[Hnil Hno]].
              ** left. exists c. destruct evs as [|ev evs]; [discriminate Hl|].
                 exact Hl.
              ** exfalso. apply (Hno h). cbn. exact Ht.
        -- inversion H; subst. split; [exact Ht|].
           exists [(GetAttr h "Slewing", Ok r); (Sleep (PyInt 1), Err e)].
           split; [cbn; rewrite <- app_assoc; reflexivity|].
           left. exists (Sleep (PyInt 1)). reflexivity.
      * cbn in H. inversion H; subst. split; [exact Ht|].
        exists [(GetAttr h "Slewing", Ok r)]. split; [reflexivity|].
        exists h, r. split; [reflexivity|]. split; [reflexivity|exact Htr].
    + inversion H; subst. split; [exact Ht|].
      exists [(GetAttr h "Slewing", Err e)]. split; [reflexivity|].
      left. exists (GetAttr h "Slewing"). reflexivity.
Qed.

(** The polling loop ends within the bound once the device stops reporting
    motion: if every reading of [Slewing] taken after [N] external calls is
    false (or fails), [N + 1] evaluations of the condition are enough. *)
Lemma slewing_loop_ends (env : Env) (N : nat) :
  (forall hist h, N <= List.length hist ->
     match env hist (GetAttr h "Slewing") with
     | Ok r => truthy r = false
     | Err _ => True
     end) ->
  forall fuel w,
    0 < fuel -> N < List.length (trace w) + fuel ->
    fst (slewing_loop fuel env w) <> Diverge.
Proof.
  intros Hsettle. induction fuel as [|n IH]; intros w Hpos Hlen; [lia|].
  cbn [slewing_loop]. unfold bind, get. cbv beta iota.
  destruct (tel_telescope w) as [| | | | | | |h] eqn:Ht; try (cbn; discriminate).
  unfold getattr. rewrite ext_run.
  destruct (env (trace w) (GetAttr h "Slewing")) as [r|e] eqn:Hr;
    [|cbn; discriminate].
  destruct (truthy r) eqn:Htr; [|cbn; discriminate].
  assert (Hlt : List.length (trace w) < N).
  { destruct (Nat.lt_ge_cases (List.length (trace w)) N) as [Hl|Hg]; [exact Hl|].
    specialize (Hsettle (trace w) h Hg). rewrite Hr in Hsettle. congruence. }
  rewrite ext_run.
  set (w1 := log (GetAttr h "Slewing", Ok r) w).
  destruct (env (trace w1) (Sleep (PyInt 1))) as [s|e] eqn:Hs; [|cbn; discriminate].
  apply IH.
  - lia.
  - subst w1. rewrite !trace_log, !length_app. cbn. lia.
Qed.

(** With a device whose failures are of class [Exception], so are the
    exceptions that leave the polling loop. *)
Lemma slewing_loop_raises_Exception (env : Env) :
  (forall hist c e, env hist c = Err e -> is_Exception e = true) ->
  forall fuel w e w',
    slewing_loop fuel env w = (Raise e, w') -> is_Exception e = true.
Proof.
  intros Henv. induction fuel as [|f IHf]; intros w e w' Hl; [discriminate Hl|].
  cbn [slewing_loop] in Hl. unfold bind, get in Hl. cbv beta iota in Hl.
  destruct (tel_telescope w) as [| | | | | | |h];
    try (cbn in Hl; inversion Hl; reflexivity).
  unfold getattr in Hl. rewrite ext_run in Hl.
  destruct (env (trace w) (GetAttr h "Slewing")) as [r|e0] eqn:Hr.
  - destruct (truthy r); [|discriminate Hl].
    rewrite ext_run in Hl.
    match type of Hl with
    | context [env ?t (Sleep ?s)] => destruct (env t (Sleep s)) as [s0|e0] eqn:Hs
    end.
    + eapply IHf; eauto.
    + inversion Hl; subst. eapply Henv; eauto.
  - inversion Hl; subst. eapply Henv; eauto.
Qed.

(** [slew_to_altaz] lets no exception of class [Exception] out, whatever the
    bound on the loop. *)
Lemma slew_to_altaz_no_raise (env : Env) :
  (forall hist c e, env hist c = Err e -> is_Exception e = true) ->
  forall fuel altitude azimuth w e w',
    slew_to_altaz fuel altitude azimuth env w <> (Raise e, w').
Proof.
  intros Henv fuel altitude azimuth w e w' H.
  unfold slew_to_altaz, try_except in H.
  unfold bind at 1 in H. unfold get in H. cbv beta iota in H.
  destruct (tel_telescope w) as [| | | | | | |h];
    try (cbn in H; discriminate H).
  unfold invoke, bind in H. rewrite ext_run in H.
  destruct (env (trace w) (Invoke h "SlewToAltAz" [azimuth; altitude]))
    as [v|e0] eqn:Hv.
  - destruct (slewing_loop fuel env _) as [[u|e1|] w2] eqn:Hl.
    + cbn in H. discriminate H.
    + rewrite (slewing_loop_raises_Exception env Henv _ _ _ _ Hl) in H.
      cbn in H. discriminate H.
    + discriminate H.
  - rewrite (Henv _ _ _ Hv) in H. cbn in H. discriminate H.
Qed.

End Slewing.

(** C6, as the specification has it, fails: the handler of [slew_to_altaz]
    covers the polling loop too.  Here the mount accepts the slew and
    reports motion; the next reading of its status fails, the error is
    swallowed, and the call returns while the last status known of the mount
    is "moving": no reading came back false and the slew itself did not
    fail. *)
Lemma slew_to_altaz_returns_while_moving :
  AltAzTelescopeController.slew_to_altaz
    5 (PyFloat 90.0%float) (PyFloat 180.0%float) env_poll_fails w_mount
  = (Ret PyNone,
     mkWorld true PyNone false (PyObj 2)
       [ (Invoke 2 "SlewToAltAz" [PyFloat 180.0%float; PyFloat 90.0%float], Ok PyNone);
         (GetAttr 2 "Slewing", Ok (PyBool true));
         (Sleep (PyInt 1), Ok PyNone);
         (GetAttr 2 "Slewing", Err (Exc com_error "link lost")) ]).
Proof. vm_compute. reflexivity. Qed.

(** C6, amended.  [slew_to_altaz] returns in three situations only: a mount
    object is attached and the last external call of the method is a reading
    of [Slewing] that came back false; or the last external call of the
    method (the slew command, a reading of [Slewing] or the sleep) raised an
    exception of class [Exception], which the method swallowed; or no mount
    object is attached and nothing was sent. *)
Theorem slew_to_altaz_return_cases :
  forall fuel altitude azimuth env w v w',
    AltAzTelescopeController.slew_to_altaz fuel altitude azimuth env w = (Ret v, w') ->
    exists evs,
      trace w' = trace w ++ evs /\
      ((exists h r, tel_telescope w = PyObj h /\
                    last_event evs = Some (GetAttr h "Slewing", Ok r) /\
                    truthy r = false)
       \/ (exists c e, last_event evs = Some (c, Err e) /\ is_Exception e = true)
       \/ (evs = [] /\ forall h, tel_telescope w <> PyObj h)).
Proof.
  intros fuel altitude azimuth env w v w' H.
  unfold AltAzTelescopeController.slew_to_altaz, try_except in H.
  unfold bind at 1 in H. unfold get in H. cbv beta iota in H.
  destruct (tel_telescope w) as [| | | | | | |h] eqn:Ht;
    try (cbn in H; inversion H; subst; exists []; rewrite app_nil_r;
         split; [reflexivity|]; right; right; split; [reflexivity|];
         intros h0; discriminate).
  unfold invoke, bind in H. rewrite ext_run in H.
  set (c0 := Invoke h "SlewToAltAz" [azimuth; altitude]) in *.
  destruct (env (trace w) c0) as [v0|e0] eqn:Hv.
  - destruct (AltAzTelescopeController.slewing_loop fuel env (log (c0, Ok v0) w))
      as [[u|e1|] w2] eqn:Hl.
    + cbn in H. inversion H; subst.
      apply slewing_loop_trace in Hl. destruct Hl as [_ [evs [Htr Hret]]].
      destruct Hret as [h' [r [Hh' [Hlast Hfalse]]]].
      exists ((c0, Ok v0) :: evs). split.
      { rewrite Htr. cbn. rewrite <- app_assoc. reflexivity. }
      left. exists h', r. split; [cbn in Hh'; congruence|]. split; [|exact Hfalse].
      destruct evs as [|ev evs]; [discriminate Hlast|]. exact Hlast.
    + apply slewing_loop_trace in Hl. destruct Hl as [_ [evs [Htr Hraise]]].
      destruct (is_Exception e1) eqn:Hcls; [|discriminate H].
      cbn in H. inversion H; subst.
      exists ((c0, Ok v0) :: evs). split.
      { rewrite Htr. cbn. rewrite <- app_assoc. reflexivity. }
      right. left. destruct Hraise as [[c Hlast]|[Hnil Hno]].
      * exists c, e1. split; [|exact Hcls].
        destruct evs as [|ev evs]; [discriminate Hlast|]. exact Hlast.
      * exfalso. apply (Hno h). cbn. exact Ht.
    + discriminate H.
  - destruct (is_Exception e0) eqn:Hcls; [|discriminate H].
    cbn in H. inversion H; subst.
    exists [(c0, Err e0)]. split; [reflexivity|].
    right. left. exists c0, e0. split; [reflexivity|exact Hcls].
Qed.

Lemma slew_to_altaz_return_cases_witness :
  exists evs,
    trace (snd (AltAzTelescopeController.slew_to_altaz
                  5 (PyFloat 90.0%float) (PyFloat 180.0%float) (env_slewing 4) w_mount))
    = trace w_mount ++ evs /\
    ((exists h r, tel_telescope w_mount = PyObj h /\
                  last_event evs = Some (GetAttr h "Slewing", Ok r) /\
                  truthy r = false)
     \/ (exists c e, last_event evs = Some (c, Err e) /\ is_Exception e = true)
     \/ (evs = [] /\ forall h, tel_telescope w_mount <> PyObj h)).
Proof.
  apply (slew_to_altaz_return_cases
           5 (PyFloat 90.0%float) (PyFloat 180.0%float) (env_slewing 4) w_mount PyNone).
  vm_compute. reflexivity.
Defined.

(** The mount of [env_slewing 4] is polled three times: twice it is moving,
    the third reading is false and ends the call. *)
Example slew_to_altaz_polls :
  trace (snd (AltAzTelescopeController.slew_to_altaz
                5 (PyFloat 90.0%float) (PyFloat 180.0%float) (env_slewing 4) w_mount))
  = [ (Invoke 2 "SlewToAltAz" [PyFloat 180.0%float; PyFloat 90.0%float], Ok PyNone);
      (GetAttr 2 "Slewing", Ok (PyBool true));
      (Sleep (PyInt 1), Ok PyNone);
      (GetAttr 2 "Slewing", Ok (PyBool true));
      (Sleep (PyInt 1), Ok PyNone);
      (GetAttr 2 "Slewing", Ok (PyBool false)) ].
Proof. vm_compute. reflexivity. Qed.

(** C9.  [slew_to_altaz] never propagates an error of the device: with a
    device whose failures are exceptions of class [Exception] and whose
    [Slewing] status stops reading true after [N] external calls, the call
    returns normally, with the value [None], for every altitude, azimuth and
    state, whether the slew was carried out, rejected or failed on the way.
    The outcome therefore tells the caller nothing about the slew. *)
Theorem slew_to_altaz_swallows_errors (env : Env) (N : nat) :
  (forall hist c e, env hist c = Err e -> is_Exception e = true) ->
  (forall hist h, N <= List.length hist ->
     match env hist (GetAttr h "Slewing") with
     | Ok r => truthy r = false
     | Err _ => True
     end) ->
  forall fuel altitude azimuth w,
    N < fuel ->
    exists w',
      AltAzTelescopeController.slew_to_altaz fuel altitude azimuth env w
      = (Ret PyNone, w').
Proof.
  intros Henv Hsettle fuel altitude azimuth w Hfuel.
  destruct (AltAzTelescopeController.slew_to_altaz fuel altitude azimuth env w)
    as [[v|e|] w'] eqn:H.
  - exists w'. f_equal.
    unfold AltAzTelescopeController.slew_to_altaz, try_except in H.
    destruct (bind _ _ env w) as [[v1|e1|] w1] eqn:Hb.
    + unfold bind, get in Hb. cbv beta iota in Hb.
      destruct (invoke _ _ _ env w) as [[a|e2|] w2]; try discriminate Hb.
      destruct (AltAzTelescopeController.slewing_loop fuel env w2) as [[u|e3|] w3];
        try discriminate Hb.
      cbn in Hb. inversion Hb; subst. inversion H; subst. reflexivity.
    + destruct (is_Exception e1); [|discriminate H].
      cbn in H. inversion H; subst. reflexivity.
    + discriminate H.
  - exfalso. exact (slew_to_altaz_no_raise env Henv _ _ _ _ _ _ H).
  - exfalso.
    unfold AltAzTelescopeController.slew_to_altaz, try_except in H.
    unfold bind at 1 in H. unfold get in H. cbv beta iota in H.
    destruct (tel_telescope w) as [| | | | | | |h];
      try (cbn in H; discriminate H).
    unfold invoke, bind in H. rewrite ext_run in H.
    destruct (env (trace w) (Invoke h "SlewToAltAz" [azimuth; altitude]))
      as [v0|e0] eqn:Hv.
    + match type of H with
      | context [AltAzTelescopeController.slewing_loop fuel env ?w1] =>
          pose proof (slewing_loop_ends env N Hsettle fuel w1) as Hends;
          destruct (AltAzTelescopeController.slewing_loop fuel env w1)
            as [[u|e1|] w2] eqn:Hl
      end.
      * cbn in H. discriminate H.
      * destruct (is_Exception e1); cbn in H; discriminate H.
      * apply Hends; [lia| lia |reflexivity].
    + destruct (is_Exception e0); cbn in H; discriminate H.
Qed.

Lemma slew_to_altaz_swallows_errors_witness :
  exists w',
    AltAzTelescopeController.slew_to_altaz
      1 (PyFloat 90.0%float) (PyFloat 180.0%float) env_reject w_mount
    = (Ret PyNone, w').
Proof.
  apply (slew_to_altaz_swallows_errors env_reject 0).
  - intros hist c e H. unfold env_reject in H.
    destruct c; try discriminate H.
    destruct (String.eqb name "SlewToAltAz"); [|discriminate H].
    inversion H. reflexivity.
  - intros hist h _. reflexivity.
  - lia.
Defined.

(** A rejected slew and a completed one end alike for the caller. *)
Example slew_to_altaz_rejected_or_done :
  fst (AltAzTelescopeController.slew_to_altaz
         5 (PyFloat 90.0%float) (PyFloat 180.0%float) env_reject w_mount)
  = Ret PyNone /\
  fst (AltAzTelescopeController.slew_to_altaz
         5 (PyFloat 90.0%float) (PyFloat 180.0%float) (env_slewing 4) w_mount)
  = Ret PyNone.
Proof. split; vm_compute; reflexivity. Qed.

(** ** The camera *)

Section Camera.

Import SVBonyCamera.

(** C7.  While the camera is not connected, [configure_camera] and
    [capture_image] fail with [ConnectionError("Camera not connected.")] and
    leave the state, hence the trace of device calls, as it was.  While it is
    connected the check lets the call through: it then is the driver-specific
    operation. *)
Theorem camera_requires_connection :
  forall fuel env w exposure gain output_file,
    (cam_connected w = false ->
       configure_camera exposure gain env w = (Raise not_connected, w) /\
       capture_image fuel output_file env w = (Raise not_connected, w)) /\
    (cam_connected w = true ->
       configure_camera exposure gain env w
       = (if cam_use_ascom w then set_ascom_settings exposure gain
          else set_sdk_settings exposure gain) env w /\
       capture_image fuel output_file env w
       = (if cam_use_ascom w then capture_ascom_image fuel output_file
          else capture_sdk_image output_file) env w).
Proof.
  intros fuel env w exposure gain output_file.
  unfold configure_camera, capture_image, bind, get. cbv beta iota.
  split; intros Hc; rewrite Hc; cbn [negb];
    split; try reflexivity; destruct (cam_use_ascom w); reflexivity.
Qed.

Lemma camera_requires_connection_witness :
  (configure_camera (PyFloat 2.0%float) (PyInt 50) env_quiet w0
   = (Raise not_connected, w0) /\
   capture_image 3 (PyStr "captured_image.png") env_quiet w0
   = (Raise not_connected, w0)) /\
  (configure_camera (PyFloat 2.0%float) (PyInt 50) env_quiet w_camera
   = set_ascom_settings (PyFloat 2.0%float) (PyInt 50) env_quiet w_camera /\
   capture_image 3 (PyStr "captured_image.png") env_quiet w_camera
   = capture_ascom_image 3 (PyStr "captured_image.png") env_quiet w_camera).
Proof.
  split.
  - apply (camera_requires_connection
             3 env_quiet w0 (PyFloat 2.0%float) (PyInt 50) (PyStr "captured_image.png")).
    reflexivity.
  - apply (camera_requires_connection
             3 env_quiet w_camera (PyFloat 2.0%float) (PyInt 50)
             (PyStr "captured_image.png")).
    reflexivity.
Defined.

(** [disconnect_camera] in closed form. *)
Lemma disconnect_camera_run (env : Env) (w : world) :
  disconnect_camera env w =
  if cam_connected w then
    match cam_camera w with
    | PyObj h =>
        let c := camera_disconnect_call (cam_use_ascom w) h in
        match env (trace w) c with
        | Ok v => (Ret PyNone, set_cam_connected false (log (c, Ok v) w))
        | Err e => (Raise e, log (c, Err e) w)
        end
    | _ => (Raise (Exc AttributeError
                       (if cam_use_ascom w then "Connected" else "close")), w)
    end
  else (Ret PyNone, set_cam_connected false w).
Proof.
  unfold disconnect_camera, bind, get, modify. cbv beta iota.
  destruct (cam_connected w); [|reflexivity].
  destruct (cam_camera w) as [| | | | | | |h];
    try (destruct (cam_use_ascom w); reflexivity).
  cbv zeta.
  destruct (cam_use_ascom w); cbn [camera_disconnect_call];
    unfold setattr, invoke; rewrite ext_run;
    match goal with
    | |- context [env ?t ?c] => destruct (env t c)
    end; reflexivity.
Qed.

(** C10, as the specification has it, fails: when the device refuses the
    disconnect, the exception leaves [disconnect_camera] before the flag is
    cleared, and the camera still counts as connected. *)
Lemma disconnect_camera_flag_survives_failure :
  fst (disconnect_camera env_disconnect_fails w_camera)
  = Raise (Exc com_error "device unplugged") /\
  cam_connected (snd (disconnect_camera env_disconnect_fails w_camera)) = true.
Proof. split; vm_compute; reflexivity. Qed.

(** C10, amended.  [disconnect_camera] never runs forever.  On a camera that
    is not connected it returns [None] without any device operation and
    leaves the state as it is.  On a connected camera it issues exactly one
    device operation, the disconnect of the driver in use, and returns [None]
    exactly when the device accepted it; when the device refuses it, that
    exception reaches the caller.  After every call that returns, the flag
    [connected] is false, so that a second call does nothing; after every
    call that raises, the camera was connected and still counts as
    connected. *)
Theorem disconnect_camera_spec :
  forall env w,
    let o := fst (disconnect_camera env w) in
    let w' := snd (disconnect_camera env w) in
    o <> Diverge /\
    (cam_connected w = false -> o = Ret PyNone /\ w' = w) /\
    (forall h, cam_connected w = true -> cam_camera w = PyObj h ->
       let c := camera_disconnect_call (cam_use_ascom w) h in
       trace w' = trace w ++ [(c, env (trace w) c)] /\
       (o = Ret PyNone <-> exists v, env (trace w) c = Ok v) /\
       (forall e, env (trace w) c = Err e ->
          o = Raise e /\ cam_connected w' = true)) /\
    (forall v, o = Ret v ->
       v = PyNone /\ cam_connected w' = false /\
       disconnect_camera env w' = (Ret PyNone, w')) /\
    (forall e, o = Raise e ->
       cam_connected w = true /\ cam_connected w' = true).
Proof.
  intros env w. cbv zeta.
  rewrite (disconnect_camera_run env w).
  destruct w as [ua cam conn tel tr].
  cbn [cam_connected cam_use_ascom cam_camera trace].
  destruct conn; cycle 1.
  { cbn. split; [discriminate|]. split; [auto|]. split; [discriminate|].
    split; [|discriminate].
    intros v Hv. inversion Hv. auto. }
  destruct cam as [| | | | | | |h];
    try (cbn; (split; [discriminate|]); (split; [discriminate|]);
         (split; [discriminate|]); (split; [discriminate|]);
         intros e _; split; reflexivity).
  cbv zeta.
  destruct (env tr (camera_disconnect_call ua h)) as [v|e] eqn:Hv.
  - cbn. split; [discriminate|]. split; [discriminate|]. split; [|split].
    + intros h0 _ Hh. inversion Hh; subst h0. rewrite Hv.
      split; [reflexivity|]. split; [split; [eauto|reflexivity]|].
      discriminate.
    + intros v0 Hv0. inversion Hv0.
      split; [reflexivity|]. split; reflexivity.
    + discriminate.
  - cbn. split; [discriminate|]. split; [discriminate|]. split; [|split].
    + intros h0 _ Hh. inversion Hh; subst h0. rewrite Hv.
      split; [reflexivity|]. split.
      * split; [discriminate|]. intros [v0 Hv0]. discriminate Hv0.
      * intros e0 He0. inversion He0. split; reflexivity.
    + discriminate.
    + intros e0 _. split; reflexivity.
Qed.

Lemma disconnect_camera_spec_witness :
  cam_connected (snd (disconnect_camera env_quiet w_camera)) = false /\
  trace (snd (disconnect_camera env_quiet w_camera))
  = [(SetAttr 3 "Connected" (PyBool false), Ok PyNone)] /\
  (fst (disconnect_camera env_disconnect_fails w_camera)
   = Raise (Exc com_error "device unplugged") /\
   cam_connected (snd (disconnect_camera env_disconnect_fails w_camera)) = true).
Proof.
  pose proof (disconnect_camera_spec env_quiet w_camera) as H. cbv zeta in H.
  destruct H as [_ [_ [Hdev [Hret _]]]].
  pose proof (disconnect_camera_spec env_disconnect_fails w_camera) as H'.
  cbv zeta in H'. destruct H' as [_ [_ [Hdev' _]]].
  split; [|split].
  - apply (Hret PyNone). vm_compute. reflexivity.
  - apply (Hdev 3); reflexivity.
  - apply (Hdev' 3); reflexivity.
Defined.

(** C5, as the specification has it, fails: a call in which the driver
    refused the gain and a call in which it took it end with the same
    outcome, the value [None]; no reading of the outcome can tell a partial
    application from a full one. *)
Lemma configure_camera_reports_no_status :
  ~ (exists decode, Spec_configure_reports decode).
Proof.
  intros [decode H].
  destruct (H env_no_gain w_camera (PyFloat 2.0%float) (PyInt 50) eq_refl eq_refl)
    as [Hpartial _].
  destruct (H env_quiet w_camera (PyFloat 2.0%float) (PyInt 50) eq_refl eq_refl)
    as [_ Hfull].
  cbv zeta in Hpartial, Hfull.
  assert (E1 : configure_camera (PyFloat 2.0%float) (PyInt 50) env_no_gain w_camera
               = (Ret PyNone,
                  mkWorld true (PyObj 3) true PyNone
                    [ (SetAttr 3 "ExposureTime" (PyFloat 2.0%float), Ok PyNone);
                      (SetAttr 3 "Gain" (PyInt 50), Err (Exc AttributeError "Gain")) ]))
    by (vm_compute; reflexivity).
  assert (E2 : configure_camera (PyFloat 2.0%float) (PyInt 50) env_quiet w_camera
               = (Ret PyNone,
                  mkWorld true (PyObj 3) true PyNone
                    [ (SetAttr 3 "ExposureTime" (PyFloat 2.0%float), Ok PyNone);
                      (SetAttr 3 "Gain" (PyInt 50), Ok PyNone) ]))
    by (vm_compute; reflexivity).
  rewrite E1 in Hpartial. rewrite E2 in Hfull.
  specialize (Hpartial eq_refl).
  specialize (Hfull eq_refl (ex_intro _ PyNone eq_refl)).
  cbn [fst] in Hpartial, Hfull. congruence.
Qed.

(** C5, amended.  On the ASCOM path, with a camera object attached and an
    exposure that the driver accepts: whether the driver takes the gain or
    refuses it with [AttributeError], [configure_camera] does not fail; the
    exposure has been assigned, the gain has been tried once, and the call
    returns [None] in both cases. *)
Theorem configure_camera_gain_unsupported :
  forall env w exposure gain h v r,
    cam_connected w = true ->
    cam_use_ascom w = true ->
    cam_camera w = PyObj h ->
    env (trace w) (SetAttr h "ExposureTime" exposure) = Ok v ->
    env (trace w ++ [(SetAttr h "ExposureTime" exposure, Ok v)])
        (SetAttr h "Gain" gain) = r ->
    match r with Ok _ => True | Err e => is_AttributeError e = true end ->
    configure_camera exposure gain env w
    = (Ret PyNone,
       log (SetAttr h "Gain" gain, r)
           (log (SetAttr h "ExposureTime" exposure, Ok v) w)).
Proof.
  intros env w exposure gain h v r Hconn Hascom Hcam Hexp Hgain Hr.
  unfold configure_camera, bind, get. cbv beta iota.
  rewrite Hconn. cbn [negb]. cbv beta iota. rewrite Hascom.
  unfold set_ascom_settings, try_except, bind, get. cbv beta iota.
  rewrite Hcam. unfold setattr. rewrite ext_run, Hexp.
  cbn [cam_camera log]. rewrite Hcam, ext_run. cbn [trace]. subst r.
  change (trace (log (SetAttr h "ExposureTime" exposure, Ok v) w))
    with (trace w ++ [(SetAttr h "ExposureTime" exposure, Ok v)]).
  destruct (env (trace w ++ [(SetAttr h "ExposureTime" exposure, Ok v)])
                (SetAttr h "Gain" gain)) as [v'|e]; [reflexivity|].
  rewrite Hr. reflexivity.
Qed.

Lemma configure_camera_gain_unsupported_witness :
  configure_camera (PyFloat 2.0%float) (PyInt 50) env_no_gain w_camera
  = (Ret PyNone,
     log (SetAttr 3 "Gain" (PyInt 50), Err (Exc AttributeError "Gain"))
         (log (SetAttr 3 "ExposureTime" (PyFloat 2.0%float), Ok PyNone) w_camera)).
Proof.
  apply (configure_camera_gain_unsupported
           env_no_gain w_camera (PyFloat 2.0%float) (PyInt 50) 3 PyNone
           (Err (Exc AttributeError "Gain")));
    reflexivity.
Defined.

(** Outside that case a refused parameter fails the whole call: the SDK path
    has no handler around [set_gain]. *)
Example configure_camera_sdk_gain_fails :
  fst (configure_camera (PyInt 2000) (PyInt 50) env_no_gain w_sdk_camera)
  = Raise (Exc AttributeError "set_gain").
Proof. vm_compute. reflexivity. Qed.

End Camera.

(** ** The plate solver *)

Section Solver.

Import PlateSolver.

Example solved_wcs_of_output_image :
  str_replace output_image ".png" ".wcs" = "plate_solve_image.wcs".
Proof. reflexivity. Qed.

(** Every occurrence is replaced, from the left and without overlap; a path
    without [".png"] is left as it is. *)
Example str_replace_cases :
  str_replace "a.png.png" ".png" ".wcs" = "a.wcs.wcs" /\
  str_replace "frame.fits" ".png" ".wcs" = "frame.fits" /\
  str_replace "aaa" "aa" "b" = "ba".
Proof. repeat split; reflexivity. Qed.

(** The local solve up to the test for the WCS file. *)
Lemma solve_image_local_run (self : t) (image_path : string) (env : Env)
      (w : world) (st b : pyval) :
  local_solver self = true ->
  let wcs := str_replace image_path ".png" ".wcs" in
  let w1 := log (OsSystem (solve_command image_path), Ok st) w in
  let w2 := log (PathExists wcs, Ok b) w1 in
  env (trace w) (OsSystem (solve_command image_path)) = Ok st ->
  env (trace w1) (PathExists wcs) = Ok b ->
  solve_image self image_path env w
  = if truthy b then parse_wcs wcs env w2 else (Raise no_wcs, w2).
Proof.
  intros Hlocal wcs w1 w2 Hsys Hex.
  unfold solve_image. rewrite Hlocal.
  unfold bind. rewrite ext_run, Hsys. fold w1.
  fold wcs. rewrite ext_run, Hex. fold w2.
  destruct (truthy b); reflexivity.
Qed.

(** C3, as the specification has it, fails: when the solver leaves no WCS
    file, [solve_image] returns no value at all, it raises
    [FileNotFoundError]. *)
Lemma solve_image_raises_without_wcs :
  fst (solve_image (mk true PyNone) output_image env_no_wcs w0) = Raise no_wcs /\
  ~ (exists v, fst (solve_image (mk true PyNone) output_image env_no_wcs w0) = Ret v).
Proof.
  assert (E : fst (solve_image (mk true PyNone) output_image env_no_wcs w0)
              = Raise no_wcs) by (vm_compute; reflexivity).
  split; [exact E|]. intros [v Hv]. rewrite E in Hv. discriminate Hv.
Qed.

(** C3, amended.  With the local solver, once [solve-field] has run and the
    existence of the WCS file has been tested: if the file does not exist,
    [solve_image] raises [FileNotFoundError]; if it exists and its header
    holds [CRVAL1] and [CRVAL2], [solve_image] returns the pair of these two
    values, and nothing else (no confidence, no failure value). *)
Theorem solve_image_local :
  forall self image_path env w st b,
    local_solver self = true ->
    let wcs := str_replace image_path ".png" ".wcs" in
    let w1 := log (OsSystem (solve_command image_path), Ok st) w in
    let w2 := log (PathExists wcs, Ok b) w1 in
    env (trace w) (OsSystem (solve_command image_path)) = Ok st ->
    env (trace w1) (PathExists wcs) = Ok b ->
    (truthy b = false ->
       solve_image self image_path env w = (Raise no_wcs, w2)) /\
    (truthy b = true ->
       forall kvs ra dec,
         env (trace w2) (FitsHeader wcs) = Ok (PyDict kvs) ->
         assoc "CRVAL1" kvs = Some ra ->
         assoc "CRVAL2" kvs = Some dec ->
         solve_image self image_path env w
         = (Ret (PyTuple [ra; dec]), log (FitsHeader wcs, Ok (PyDict kvs)) w2)).
Proof.
  intros self image_path env w st b Hlocal wcs w1 w2 Hsys Hex.
  rewrite (solve_image_local_run self image_path env w st b Hlocal Hsys Hex).
  fold wcs w1 w2.
  split; intros Hb; rewrite Hb.
  - reflexivity.
  - intros kvs ra dec Hhdr Hra Hdec.
    unfold parse_wcs, bind. rewrite ext_run, Hhdr.
    unfold getitem. rewrite Hra, Hdec. reflexivity.
Qed.

Lemma solve_image_local_witness :
  solve_image (mk true PyNone) output_image env_no_wcs w0
  = (Raise no_wcs,
     log (PathExists "plate_solve_image.wcs", Ok (PyBool false))
         (log (OsSystem (solve_command output_image), Ok (PyInt 256)) w0)) /\
  solve_image (mk true PyNone) output_image
              (env_wcs 83.82%float (-5.39)%float) w0
  = (Ret (PyTuple [PyFloat 83.82%float; PyFloat (-5.39)%float]),
     log (FitsHeader "plate_solve_image.wcs",
          Ok (PyDict [("CRVAL1", PyFloat 83.82%float);
                      ("CRVAL2", PyFloat (-5.39)%float)]))
         (log (PathExists "plate_solve_image.wcs", Ok (PyBool true))
              (log (OsSystem (solve_command output_image), Ok (PyInt 0)) w0))).
Proof.
  split.
  - apply (solve_image_local (mk true PyNone) output_image env_no_wcs w0
                             (PyInt 256) (PyBool false));
      reflexivity.
  - apply (solve_image_local (mk true PyNone) output_image
                             (env_wcs 83.82%float (-5.39)%float) w0
                             (PyInt 0) (PyBool true)
                             eq_refl eq_refl eq_refl);
      reflexivity.
Defined.

(** The online solver behaves alike: its failure leaves [solve_image] as an
    exception, here the one of the missing [upload]. *)
Example solve_image_online_fails :
  fst (solve_image (mk false (PyStr "key")) output_image env_astroquery w0)
  = Raise (Exc AttributeError "upload").
Proof. vm_compute. reflexivity. Qed.

(** C4, as the specification has it, fails: with a solver that never
    produces a WCS file, step 4 of the session runs the solver once, not
    [Spec_max_solve_failures] times, and ends with [FileNotFoundError]. *)
Lemma main_step4_single_attempt :
  fst (main_step4 env_no_wcs w0) = Raise no_wcs /\
  solve_attempts (trace (snd (main_step4 env_no_wcs w0))) = 1 /\
  solve_attempts (trace (snd (main_step4 env_no_wcs w0))) <> Spec_max_solve_failures.
Proof.
  assert (E : solve_attempts (trace (snd (main_step4 env_no_wcs w0))) = 1)
    by (vm_compute; reflexivity).
  split; [vm_compute; reflexivity|]. split; [exact E|].
  rewrite E. unfold Spec_max_solve_failures. discriminate.
Qed.

Lemma solve_attempts_log (ev : event) (w : world) :
  solve_attempts (trace (log ev w))
  = solve_attempts (trace w) + (if is_solve_attempt ev then 1 else 0).
Proof.
  unfold solve_attempts, log. cbn [trace]. rewrite filter_app, length_app. cbn.
  destruct (is_solve_attempt ev); reflexivity.
Qed.

(** How one external call changes the number of solver runs. *)
Lemma ext_attempts (c : call) (env : Env) (w : world) :
  solve_attempts (trace (snd (ext c env w)))
  = solve_attempts (trace w) + (if is_solve_attempt (c, Ok PyNone) then 1 else 0).
Proof.
  rewrite ext_run. cbn [snd]. rewrite solve_attempts_log. reflexivity.
Qed.

Lemma getitem_attempts (v : pyval) (k : string) (env : Env) (w : world) :
  solve_attempts (trace (snd (getitem v k env w))) = solve_attempts (trace w).
Proof.
  unfold getitem.
  destruct v as [| | | | | |kvs|h]; try reflexivity.
  - destruct (assoc k kvs); reflexivity.
  - rewrite ext_attempts. cbn. lia.
Qed.

(** [parse_wcs] runs no solver. *)
Lemma parse_wcs_attempts (wcs : string) (env : Env) (w : world) :
  solve_attempts (trace (snd (parse_wcs wcs env w))) = solve_attempts (trace w).
Proof.
  unfold parse_wcs, bind.
  pose proof (ext_attempts (FitsHeader wcs) env w) as H0. cbn in H0.
  destruct (ext (FitsHeader wcs) env w) as [[hd|e|] w1]; cbn [snd] in *;
    try lia.
  pose proof (getitem_attempts hd "CRVAL1" env w1) as H1.
  destruct (getitem hd "CRVAL1" env w1) as [[ra|e|] w2]; cbn [snd] in *;
    try lia.
  pose proof (getitem_attempts hd "CRVAL2" env w2) as H2.
  destruct (getitem hd "CRVAL2" env w2) as [[dec|e|] w3]; cbn [snd] in *;
    cbn [ret snd]; lia.
Qed.

(** C4, amended.  The session does not retry a failed solve.  Step 4 runs
    the solver exactly once, whatever the environment does; and when that
    run leaves no WCS file, step 4 ends with [FileNotFoundError], which
    leaves the [try] suite. *)
Theorem main_step4_no_retry :
  forall env w,
    solve_attempts (trace (snd (main_step4 env w))) = solve_attempts (trace w) + 1 /\
    (forall st b,
       env (trace w) (OsSystem (solve_command output_image)) = Ok st ->
       env (trace w ++ [(OsSystem (solve_command output_image), Ok st)])
           (PathExists "plate_solve_image.wcs") = Ok b ->
       truthy b = false ->
       fst (main_step4 env w) = Raise no_wcs).
Proof.
  intros env w. split.
  - unfold main_step4, bind. cbn [PlateSolver.init negb ret].
    unfold solve_image. cbn [local_solver]. unfold bind.
    pose proof (ext_attempts (OsSystem (solve_command output_image)) env w) as H0.
    cbn [is_solve_attempt fst] in H0.
    destruct (ext (OsSystem (solve_command output_image)) env w)
      as [[st|e|] w1]; cbn [snd] in *; try lia.
    pose proof (ext_attempts (PathExists (str_replace output_image ".png" ".wcs"))
                             env w1) as H1.
    cbn [is_solve_attempt fst] in H1.
    destruct (ext (PathExists (str_replace output_image ".png" ".wcs")) env w1)
      as [[b|e|] w2]; cbn [snd] in *; try lia.
    destruct (truthy b); [|cbn [raise snd]; lia].
    pose proof (parse_wcs_attempts (str_replace output_image ".png" ".wcs") env w2)
      as Hp.
    destruct (parse_wcs _ env w2) as [[v|e|] w3]; cbn [snd] in *; try lia.
    unfold unpack2.
    destruct v as [| | | | |vs| |]; cbn [raise ret snd]; try lia.
    destruct vs as [|a [|b0 [|c0 vs]]]; cbn [raise ret snd]; lia.
  - intros st b Hst Hb Hfalse.
    unfold main_step4, bind. cbn [PlateSolver.init negb ret].
    rewrite (solve_image_local_run (mk true PyNone) output_image env w st b
                                   eq_refl Hst Hb).
    rewrite Hfalse. reflexivity.
Qed.

Lemma main_step4_no_retry_witness :
  fst (main_step4 env_no_wcs w0) = Raise no_wcs.
Proof.
  apply (proj2 (main_step4_no_retry env_no_wcs w0) (PyInt 256) (PyBool false));
    reflexivity.
Defined.

End Solver.

(** ** The session: [main] *)

Section Session.

Lemma slew_commands_app (a b : list event) :
  slew_commands (a ++ b) = slew_commands a ++ slew_commands b.
Proof.
  induction a as [|[c r] a IH]; [reflexivity|].
  cbn [app slew_commands]. destruct c; try exact IH.
  destruct (String.eqb name "SlewToAltAz"); [|exact IH].
  cbn [app]. rewrite IH. reflexivity.
Qed.

Lemma slew_commands_log (c : call) (r : response) (w : world) :
  slew_commands (trace (log (c, r) w))
  = slew_commands (trace w) ++ slew_commands [(c, r)].
Proof. cbn [log trace]. apply slew_commands_app. Qed.

(** The polling loop commands no slew. *)
Lemma slewing_loop_commands (env : Env) :
  forall fuel w,
    slew_commands (trace (snd (AltAzTelescopeController.slewing_loop fuel env w)))
    = slew_commands (trace w).
Proof.
  induction fuel as [|n IH]; intros w; [reflexivity|].
  cbn [AltAzTelescopeController.slewing_loop]. unfold bind, get. cbv beta iota.
  destruct (tel_telescope w) as [| | | | | | |h]; try reflexivity.
  unfold getattr. rewrite ext_run.
  destruct (env (trace w) (GetAttr h "Slewing")) as [r|e];
    [|cbn [snd]; rewrite slew_commands_log; cbn; apply app_nil_r].
  destruct (truthy r);
    [|cbn [ret snd]; rewrite slew_commands_log; cbn; apply app_nil_r].
  rewrite ext_run.
  match goal with
  | |- context [env ?t (Sleep ?s)] => destruct (env t (Sleep s)) as [s0|e]
  end.
  - rewrite IH, !slew_commands_log. cbn. rewrite !app_nil_r. reflexivity.
  - cbn [snd]. rewrite !slew_commands_log. cbn. rewrite !app_nil_r. reflexivity.
Qed.

(** The slew commands of one call of [slew_to_altaz]: the position it was
    given, once, if a mount object is attached. *)
Lemma slew_to_altaz_commands (fuel : nat) (altitude azimuth : pyval)
      (env : Env) (w : world) :
  slew_commands
    (trace (snd (AltAzTelescopeController.slew_to_altaz fuel altitude azimuth env w)))
  = slew_commands (trace w)
    ++ match tel_telescope w with
       | PyObj _ => [[azimuth; altitude]]
       | _ => []
       end.
Proof.
  unfold AltAzTelescopeController.slew_to_altaz, try_except.
  unfold bind at 1. unfold get. cbv beta iota.
  destruct (tel_telescope w) as [| | | | | | |h];
    try (cbn; rewrite app_nil_r; reflexivity).
  unfold invoke, bind. rewrite ext_run.
  set (c := Invoke h "SlewToAltAz" [azimuth; altitude]).
  assert (Hc : forall r, slew_commands (trace (log (c, r) w))
                         = slew_commands (trace w) ++ [[azimuth; altitude]]).
  { intros r. rewrite slew_commands_log. reflexivity. }
  destruct (env (trace w) c) as [v|e].
  - pose proof (slewing_loop_commands env fuel (log (c, Ok v) w)) as Hl.
    rewrite Hc in Hl.
    destruct (AltAzTelescopeController.slewing_loop fuel env (log (c, Ok v) w))
      as [[u|e|] w2]; cbn [snd] in Hl.
    + exact Hl.
    + destruct (is_Exception e); exact Hl.
    + exact Hl.
  - destruct (is_Exception e); cbn [ret snd]; apply Hc.
Qed.

Lemma main_step6_unfold (fuel : nat) (ra dec m42 : pyval) :
  main_step6 fuel ra dec m42
  = AltAzTelescopeController.slew_to_altaz
      fuel (PyFloat 90.0%float) (PyFloat 180.0%float).
Proof. reflexivity. Qed.

(** As every run of the program does, the steps after the capture stop at
    the target expression of step 5: in the working observatory they end
    with astropy's [UnitConversionError] and send the mount nothing. *)
Example main_after_capture_stops_at_target :
  fst (main_after_capture 5 (env_session 10.0%float 20.0%float) w_mount)
  = Raise (Exc UnitConversionError
               "'min' (time) and 'hourangle' (angle) are not convertible") /\
  slew_commands
    (trace (snd (main_after_capture 5 (env_session 10.0%float 20.0%float) w_mount)))
  = [].
Proof. split; vm_compute; reflexivity. Qed.

(** C2, as the specification has it, fails: step 6, run after a solve that
    gave [(10, 20)] and run after a solve that gave [(200, -45)], two
    different positions, commands the same slew. *)
Lemma main_slew_ignores_solution :
  (PyFloat 10.0%float, PyFloat 20.0%float)
  <> (PyFloat 200.0%float, PyFloat (-45.0)%float) /\
  slew_commands
    (trace (snd (main_step6 5 (PyFloat 10.0%float) (PyFloat 20.0%float) (PyObj 7)
                            (env_slewing 4) w_mount)))
  = [[PyFloat 180.0%float; PyFloat 90.0%float]] /\
  slew_commands
    (trace (snd (main_step6 5 (PyFloat 200.0%float) (PyFloat (-45.0)%float) (PyObj 7)
                            (env_slewing 4) w_mount)))
  = [[PyFloat 180.0%float; PyFloat 90.0%float]].
Proof.
  split; [|split; vm_compute; reflexivity].
  intros H.
  pose (is_ten := fun p : pyval * pyval =>
                    match fst p with
                    | PyFloat f => PrimFloat.eqb f 10.0%float
                    | _ => false
                    end).
  assert (E : is_ten (PyFloat 10.0%float, PyFloat 20.0%float)
              = is_ten (PyFloat 200.0%float, PyFloat (-45.0)%float))
    by (rewrite H; reflexivity).
  vm_compute in E. discriminate E.
Qed.

(** C2, amended.  The slew of the session (step 6) commands the fixed
    position altitude 90.0, azimuth 180.0: whatever the solved position
    [(ra, dec)] and the target [m42] are, step 6 sends the mount exactly the
    command [SlewToAltAz(180.0, 90.0)] if a mount object is attached, and no
    command otherwise. *)
Theorem main_step6_fixed_position :
  forall fuel ra dec m42 env w,
    slew_commands (trace (snd (main_step6 fuel ra dec m42 env w)))
    = slew_commands (trace w)
      ++ match tel_telescope w with
         | PyObj _ => [[PyFloat 180.0%float; PyFloat 90.0%float]]
         | _ => []
         end.
Proof.
  intros fuel ra dec m42 env w.
  rewrite main_step6_unfold. apply slew_to_altaz_commands.
Qed.

(** The [try] suite never gets past its first call: [configure_camera] has
    no parameter [exposure_ms]. *)
Lemma main_try_stops_at_configure (fuel : nat) (env : Env) (w : world) :
  main_try fuel env w = (Raise (Exc TypeError "configure_camera"), w).
Proof. reflexivity. Qed.

(** The [finally] suite never gets past its first call either:
    [SVBonyCamera] defines [disconnect_camera], not [close_camera]; the
    telescope is not reached. *)
Lemma main_finally_stops_at_close (fuel : nat) (env : Env) (w : world) :
  main_finally fuel env w = (Raise (Exc AttributeError "close_camera"), w).
Proof. reflexivity. Qed.

(** C1: the code breaks the claim.  Every run of [main] ends at the call of
    [camera.init_camera()], a method that [SVBonyCamera] does not define
    (it defines [connect_camera]): the [AttributeError] leaves [main] before
    any device has been touched, so no device receives a disconnect.  Were
    the [try] statement reached, its cleanup would fail in turn at
    [camera.close_camera()]: that [AttributeError] replaces the session's
    own outcome and the telescope's disconnect is skipped.  In the working
    observatory [env_session] the count of disconnects is 0. *)
Theorem main_skips_cleanup :
  (forall fuel env w,
     fst (main fuel env w) = Raise (Exc AttributeError "init_camera") /\
     trace (snd (main fuel env w)) = trace w /\
     try_finally (main_try fuel) (main_finally fuel) env w
     = (Raise (Exc AttributeError "close_camera"), w)) /\
  disconnects (trace (snd (main 5 (env_session 83.82%float (-5.39)%float) w0))) = 0.
Proof.
  split.
  - intros fuel env w. split; [reflexivity|]. split; reflexivity.
  - vm_compute. reflexivity.
Qed.

(** The programs of the two device modules, which use the names that the
    classes define, do disconnect their device once. *)
Example svbony_camera_main_disconnects :
  fst (svbony_camera_main 5 (env_session 83.82%float (-5.39)%float) w0) = Ret PyNone /\
  disconnects
    (trace (snd (svbony_camera_main 5 (env_session 83.82%float (-5.39)%float) w0)))
  = 1.
Proof. split; vm_compute; reflexivity. Qed.

Example ascom_telescope_main_disconnects :
  fst (ascom_telescope_main 5 (env_session 83.82%float (-5.39)%float) w0) = Ret PyNone /\
  disconnects
    (trace (snd (ascom_telescope_main 5 (env_session 83.82%float (-5.39)%float) w0)))
  = 1.
Proof. split; vm_compute; reflexivity. Qed.

End Session.

(** ** Rules for postconditions *)

Lemma post_ret {A} (a : A) (env : Env) (w : world) (Q : outcome A -> world -> Prop) :
  Q (Ret a) w -> post (ret a) env w Q.
Proof. exact (fun H => H). Qed.

Lemma post_raise {A} (e : exn) (env : Env) (w : world) (Q : outcome A -> world -> Prop) :
  Q (Raise e) w -> post (raise e) env w Q.
Proof. exact (fun H => H). Qed.

Lemma post_get {A} (f : world -> A) (env : Env) (w : world) (Q : outcome A -> world -> Prop) :
  Q (Ret (f w)) w -> post (get f) env w Q.
Proof. exact (fun H => H). Qed.

Lemma post_modify (f : world -> world) (env : Env) (w : world) (Q : outcome unit -> world -> Prop) :
  Q (Ret tt) (f w) -> post (modify f) env w Q.
Proof. exact (fun H => H). Qed.

Lemma post_bind {A B} (m : M A) (k : A -> M B) (env : Env) (w : world)
      (Q : outcome B -> world -> Prop) :
  post m env w (fun o w' =>
                  match o with
                  | Ret a => post (k a) env w' Q
                  | Raise e => Q (Raise e) w'
                  | Diverge => Q Diverge w'
                  end) ->
  post (bind m k) env w Q.
Proof.
  unfold post, bind. destruct (m env w) as [[a|e|] w']; exact (fun H => H).
Qed.

Lemma post_ext (c : call) (env : Env) (w : world) (Q : outcome pyval -> world -> Prop) :
  (forall v, env (trace w) c = Ok v -> Q (Ret v) (log (c, Ok v) w)) ->
  (forall e, env (trace w) c = Err e -> Q (Raise e) (log (c, Err e) w)) ->
  post (ext c) env w Q.
Proof.
  intros Hok Herr. unfold post. rewrite ext_run.
  destruct (env (trace w) c) as [v|e]; [apply Hok|apply Herr]; reflexivity.
Qed.

Lemma post_try_except {A} (m : M A) (sel : exn -> bool) (h : exn -> M A) (env : Env) (w : world)
      (Q : outcome A -> world -> Prop) :
  post m env w (fun o w' =>
                  match o with
                  | Raise e => if sel e then post (h e) env w' Q else Q (Raise e) w'
                  | _ => Q o w'
                  end) ->
  post (try_except m sel h) env w Q.
Proof.
  unfold post, try_except. destruct (m env w) as [[a|e|] w']; try exact (fun H => H).
  cbn [fst snd]. destruct (sel e); exact (fun H => H).
Qed.

Lemma post_try_finally {A B} (m : M A) (fin : M B) (env : Env) (w : world)
      (Q : outcome A -> world -> Prop) :
  post m env w (fun o w' =>
                  match o with
                  | Diverge => Q Diverge w'
                  | _ =>
                      post fin env w' (fun o' w'' =>
                                         match o' with
                                         | Ret _ => Q o w''
                                         | Raise e' => Q (Raise e') w''
                                         | Diverge => Q Diverge w''
                                         end)
                  end) ->
  post (try_finally m fin) env w Q.
Proof.
  unfold post, try_finally.
  destruct (m env w) as [[a|e|] w']; cbn [fst snd];
    try destruct (fin env w') as [[b|e'|] w'']; exact (fun H => H).
Qed.

Lemma post_weaken {A} (m : M A) (env : Env) (w : world) (Q Q' : outcome A -> world -> Prop) :
  (forall o w', Q o w' -> Q' o w') -> post m env w Q -> post m env w Q'.
Proof. intros H. unfold post. apply H. Qed.

(** Attribute access on a value: on an object the environment answers,
    otherwise [AttributeError]. *)
Lemma post_getattr (o : pyval) (name : string) (env : Env) (w : world)
      (Q : outcome pyval -> world -> Prop) :
  (forall h, o = PyObj h -> post (ext (GetAttr h name)) env w Q) ->
  ((forall h, o <> PyObj h) -> Q (Raise (Exc AttributeError name)) w) ->
  post (getattr o name) env w Q.
Proof.
  intros Hobj Hno. destruct o; try (apply Hno; intros h0; discriminate).
  apply Hobj. reflexivity.
Qed.

Lemma post_setattr (o : pyval) (name : string) (v : pyval) (env : Env) (w : world)
      (Q : outcome pyval -> world -> Prop) :
  (forall h, o = PyObj h -> post (ext (SetAttr h name v)) env w Q) ->
  ((forall h, o <> PyObj h) -> Q (Raise (Exc AttributeError name)) w) ->
  post (setattr o name v) env w Q.
Proof.
  intros Hobj Hno. destruct o; try (apply Hno; intros h0; discriminate).
  apply Hobj. reflexivity.
Qed.

Lemma post_invoke (o : pyval) (name : string) (args : list pyval) (env : Env) (w : world)
      (Q : outcome pyval -> world -> Prop) :
  (forall h, o = PyObj h -> post (ext (Invoke h name args)) env w Q) ->
  ((forall h, o <> PyObj h) -> Q (Raise (Exc AttributeError name)) w) ->
  post (invoke o name args) env w Q.
Proof.
  intros Hobj Hno. destruct o; try (apply Hno; intros h0; discriminate).
  apply Hobj. reflexivity.
Qed.

(** One step of a run. *)
Ltac wp :=
  lazymatch goal with
  | |- post (bind _ _) _ _ _ => apply post_bind
  | |- post (ret _) _ _ _ => apply post_ret
  | |- post (raise _) _ _ _ => apply post_raise
  | |- post (get _) _ _ _ => apply post_get
  | |- post (modify _) _ _ _ => apply post_modify
  | |- post (try_except _ _ _) _ _ _ => apply post_try_except
  | |- post (try_finally _ _) _ _ _ => apply post_try_finally
  | |- post (getattr _ _) _ _ _ => apply post_getattr; [intros ? ?|intros ?]
  | |- post (setattr _ _ _) _ _ _ => apply post_setattr; [intros ? ?|intros ?]
  | |- post (invoke _ _ _) _ _ _ => apply post_invoke; [intros ? ?|intros ?]
  | |- post (ext _) _ _ _ => apply post_ext; [intros ? ?|intros ? ?]
  | |- post (if ?b then _ else _) _ _ _ => destruct b eqn:?
  end.

(** The same, with a case split on the test of a handler. *)
Ltac wpc :=
  first [ wp
        | match goal with
          | |- if ?b then _ else _ => destruct b eqn:?
          end ].

(** From a postcondition to the result of the run. *)
Lemma post_run {A} (m : M A) (env : Env) (w : world)
      (Q : outcome A -> world -> Prop) :
  post m env w Q -> forall o w', m env w = (o, w') -> Q o w'.
Proof. unfold post. intros H o w' E. rewrite E in H. exact H. Qed.

Lemma last_event_cons (ev ev' : event) (tr : list event) :
  last_event (ev :: ev' :: tr) = last_event (ev' :: tr).
Proof. reflexivity. Qed.


(** ** The mount: connecting and disconnecting *)

Section Mount.

Import AltAzTelescopeController.

(** X1.  [connect_to_telescope] never lets an error of the drivers out: with
    drivers whose failures are exceptions of class [Exception], every call
    returns, and what it returns is [True] or [False]. *)
Theorem connect_to_telescope_returns_bool (env : Env) :
  (forall hist c e, env hist c = Err e -> is_Exception e = true) ->
  forall w, exists b w', connect_to_telescope env w = (Ret (PyBool b), w').
Proof.
  intros Henv w.
  assert (P : post connect_to_telescope env w
                   (fun o _ => exists b, o = Ret (PyBool b))).
  { unfold connect_to_telescope.
    repeat wp; cbn [is_Exception exc_cls];
      try match goal with
        | H : env _ _ = Err ?e |- _ => rewrite (Henv _ _ _ H)
        end;
      repeat wp; eauto. }
  unfold post in P.
  destruct (connect_to_telescope env w) as [o w']. cbn [fst] in P.
  destruct P as [b ->]. eauto.
Qed.

(** X2.  When the user selects no telescope in the chooser (a falsy
    answer), [connect_to_telescope] returns [False] after three calls to the
    chooser: no driver is dispatched and [self.telescope] keeps its value. *)
Theorem connect_to_telescope_cancelled :
  forall env w h v d,
    let c1 := Dispatch (PyStr "ASCOM.Utilities.Chooser") in
    let c2 := SetAttr h "DeviceType" (PyStr "Telescope") in
    let c3 := Invoke h "Choose" [PyNone] in
    env (trace w) c1 = Ok (PyObj h) ->
    env (trace w ++ [(c1, Ok (PyObj h))]) c2 = Ok v ->
    env (trace w ++ [(c1, Ok (PyObj h)); (c2, Ok v)]) c3 = Ok d ->
    truthy d = false ->
    exists w',
      connect_to_telescope env w = (Ret (PyBool false), w') /\
      tel_telescope w' = tel_telescope w /\
      trace w' = trace w ++ [(c1, Ok (PyObj h)); (c2, Ok v); (c3, Ok d)].
Proof.
  intros env w h v d c1 c2 c3 H1 H2 H3 Hd. subst c1 c2 c3.
  unfold connect_to_telescope, try_except, bind.
  rewrite ext_run, H1.
  unfold setattr. rewrite ext_run. cbn [trace log].
  unfold event in *. rewrite H2.
  unfold invoke. rewrite ext_run. cbn [trace log].
  rewrite <- app_assoc. cbn [app]. unfold event in *. rewrite H3, Hd. cbn [negb ret].
  eexists. split; [reflexivity|]. split; [reflexivity|].
  cbn [trace log]. rewrite <- !app_assoc. reflexivity.
Qed.

Lemma env_session_Exception (ra dec : float) :
  forall hist c e, env_session ra dec hist c = Err e -> is_Exception e = true.
Proof.
  intros hist c e H. unfold env_session in H.
  destruct c; try discriminate H;
    repeat match type of H with
      | (if ?b then _ else _) = _ => destruct b
      | match ?v with _ => _ end = _ => destruct v
      end;
    try discriminate H; inversion H; reflexivity.
Qed.

Lemma connect_to_telescope_returns_bool_witness :
  exists b w',
    connect_to_telescope (env_session 83.82%float (-5.39)%float) w0
    = (Ret (PyBool b), w').
Proof.
  apply (connect_to_telescope_returns_bool (env_session 83.82%float (-5.39)%float)).
  apply env_session_Exception.
Defined.

Lemma connect_to_telescope_cancelled_witness :
  exists w',
    connect_to_telescope env_cancel w0 = (Ret (PyBool false), w') /\
    tel_telescope w' = tel_telescope w0 /\
    trace w'
    = trace w0 ++ [ (Dispatch (PyStr "ASCOM.Utilities.Chooser"), Ok (PyObj 1));
                    (SetAttr 1 "DeviceType" (PyStr "Telescope"), Ok PyNone);
                    (Invoke 1 "Choose" [PyNone], Ok (PyStr "")) ].
Proof.
  apply (connect_to_telescope_cancelled env_cancel w0 1 PyNone (PyStr ""));
    reflexivity.
Defined.

(** X3.  When [connect_to_telescope] returns [True], a mount object is
    attached to [self.telescope] and the last call to it established the
    connection: either it reported [Connected] as true, or it accepted the
    assignment [Connected = True]. *)
Theorem connect_to_telescope_true_attached :
  forall env w w',
    connect_to_telescope env w = (Ret (PyBool true), w') ->
    exists h evs,
      tel_telescope w' = PyObj h /\
      trace w' = trace w ++ evs /\
      ((exists c, last_event evs = Some (GetAttr h "Connected", Ok c) /\
                  truthy c = true)
       \/ (exists v, last_event evs
                     = Some (SetAttr h "Connected" (PyBool true), Ok v))).
Proof.
  intros env w w' H.
  assert (P : post connect_to_telescope env w
                (fun o w' =>
                   o = Ret (PyBool true) ->
                   exists h evs,
                     tel_telescope w' = PyObj h /\
                     trace w' = trace w ++ evs /\
                     ((exists c, last_event evs = Some (GetAttr h "Connected", Ok c) /\
                                 truthy c = true)
                      \/ (exists v, last_event evs
                                    = Some (SetAttr h "Connected" (PyBool true), Ok v))))).
  { unfold connect_to_telescope.
    repeat wp;
      try match goal with
        | |- if ?b then _ else _ => destruct b
        end;
      repeat wp; try discriminate; intros _.
    - (* the mount was not connected and accepted the assignment *)
      cbn [tel_telescope set_tel_telescope log] in *. subst.
      match goal with
      | H : PyObj ?a = PyObj ?b |- _ => inversion H; subst
      end.
      eexists _, _. split; [reflexivity|]. split.
      + cbn [trace log set_tel_telescope]. rewrite <- !app_assoc. cbn [app].
        reflexivity.
      + right. eexists. reflexivity.
    - (* the mount reported that it was connected *)
      cbn [tel_telescope set_tel_telescope log] in *. subst.
      eexists _, _. split; [reflexivity|]. split.
      + cbn [trace log set_tel_telescope]. rewrite <- !app_assoc. cbn [app].
        reflexivity.
      + left. eexists. split; [reflexivity|].
        match goal with
        | H : negb (truthy ?c) = false |- truthy ?c = true =>
            destruct (truthy c); [reflexivity|discriminate H]
        end. }
  exact (post_run _ _ _ _ P _ _ H eq_refl).
Qed.

Lemma connect_to_telescope_true_attached_witness :
  exists h evs,
    tel_telescope (snd (connect_to_telescope (env_session 83.82%float (-5.39)%float) w0))
    = PyObj h /\
    trace (snd (connect_to_telescope (env_session 83.82%float (-5.39)%float) w0))
    = trace w0 ++ evs /\
    ((exists c, last_event evs = Some (GetAttr h "Connected", Ok c) /\
                truthy c = true)
     \/ (exists v, last_event evs
                   = Some (SetAttr h "Connected" (PyBool true), Ok v))).
Proof.
  apply (connect_to_telescope_true_attached
           (env_session 83.82%float (-5.39)%float) w0).
  vm_compute. reflexivity.
Defined.

(** X4.  [disconnect_telescope] always ends and never changes
    [self.telescope].  Without a mount object it returns [None] and does
    nothing.  With one it reads [Connected] and, only if that reads true,
    assigns [Connected = False]; a mount that reports itself disconnected is
    left alone, and a failure of the assignment reaches the caller. *)
Theorem disconnect_telescope_spec :
  forall env w,
    let o := fst (disconnect_telescope env w) in
    let w' := snd (disconnect_telescope env w) in
    o <> Diverge /\
    tel_telescope w' = tel_telescope w /\
    (truthy (tel_telescope w) = false -> o = Ret PyNone /\ w' = w) /\
    (forall h c,
       tel_telescope w = PyObj h ->
       env (trace w) (GetAttr h "Connected") = Ok c ->
       if truthy c
       then
         let d := SetAttr h "Connected" (PyBool false) in
         let r := env (trace (log (GetAttr h "Connected", Ok c) w)) d in
         trace w' = trace w ++ [(GetAttr h "Connected", Ok c); (d, r)] /\
         o = match r with Ok _ => Ret PyNone | Err e => Raise e end
       else
         o = Ret PyNone /\
         trace w' = trace w ++ [(GetAttr h "Connected", Ok c)]).
Proof.
  intros env w. cbv zeta.
  unfold disconnect_telescope, bind, get. cbv beta iota.
  destruct (tel_telescope w) as [|b|z|f|s|vs|kvs|h] eqn:Ht.
  8:{ cbn [truthy]. unfold getattr. rewrite ext_run.
      destruct (env (trace w) (GetAttr h "Connected")) as [c|e] eqn:Hc.
      - destruct (truthy c) eqn:Htc.
        + cbn [tel_telescope log]. rewrite Ht. unfold setattr. rewrite ext_run.
          destruct (env (trace (log (GetAttr h "Connected", Ok c) w))
                        (SetAttr h "Connected" (PyBool false))) as [v|e] eqn:Hd;
            cbn [fst snd ret];
            (split; [discriminate|]); (split; [exact Ht|]);
            (split; [discriminate|]);
            intros h0 c0 Hh Hc0;
            assert (h0 = h) by congruence; assert (c0 = c) by congruence;
            subst h0 c0; rewrite Htc; cbv zeta; rewrite Hd;
            (split; [cbn [trace log]; rewrite <- app_assoc; reflexivity
                    |reflexivity]).
        + cbn [fst snd ret].
          split; [discriminate|]. split; [exact Ht|]. split; [discriminate|].
          intros h0 c0 Hh Hc0.
          assert (h0 = h) by congruence. assert (c0 = c) by congruence.
          subst h0 c0. rewrite Htc. split; reflexivity.
      - cbn [fst snd].
        split; [discriminate|]. split; [exact Ht|]. split; [discriminate|].
        intros h0 c0 Hh Hc0. assert (h0 = h) by congruence. subst h0.
        congruence. }
  all: match goal with
       | |- context [if truthy ?v then _ else _] => destruct (truthy v) eqn:Htr
       end;
    cbn [getattr raise ret fst snd]; rewrite ?Htr; cbn [ret fst snd];
    (split; [discriminate|]); (split; [exact Ht|]);
    (split; [first [discriminate | intros _; split; reflexivity]|]);
    intros h0 c0 Hh; discriminate Hh.
Qed.

Lemma disconnect_telescope_spec_witness :
  fst (disconnect_telescope env_quiet w0) = Ret PyNone /\
  snd (disconnect_telescope env_quiet w0) = w0.
Proof.
  apply (disconnect_telescope_spec env_quiet w0). reflexivity.
Defined.

(** X5.  With a mount object attached, the first external call of
    [slew_to_altaz(altitude, azimuth)] is the command
    [SlewToAltAz(azimuth, altitude)], with the two angles in the order of
    the driver and not of the method, and no other slew command follows in
    the same call. *)
Theorem slew_to_altaz_command_first :
  forall fuel altitude azimuth env w h,
    tel_telescope w = PyObj h ->
    let c := Invoke h "SlewToAltAz" [azimuth; altitude] in
    exists evs,
      trace (snd (slew_to_altaz fuel altitude azimuth env w))
      = trace w ++ (c, env (trace w) c) :: evs /\
      slew_commands evs = [].
Proof.
  intros fuel altitude azimuth env w h Ht c.
  unfold slew_to_altaz, try_except.
  unfold bind at 1. unfold get. cbv beta iota. rewrite Ht.
  unfold invoke, bind. rewrite ext_run. fold c.
  destruct (env (trace w) c) as [v|e] eqn:Hc.
  - pose proof (slewing_loop_commands env fuel (log (c, Ok v) w)) as Hcmd.
    destruct (slewing_loop fuel env (log (c, Ok v) w)) as [o w2] eqn:Hl.
    destruct (slewing_loop_trace env fuel _ _ _ Hl) as [_ [evs [Htr _]]].
    cbn [snd] in Hcmd. rewrite Htr, slew_commands_app in Hcmd.
    assert (Hevs : slew_commands evs = []).
    { apply (app_inv_head (slew_commands (trace (log (c, Ok v) w)))).
      rewrite app_nil_r. exact Hcmd. }
    exists evs. split; [|exact Hevs].
    assert (Hw2 : trace w2 = trace w ++ (c, Ok v) :: evs).
    { rewrite Htr. cbn [trace log]. rewrite <- app_assoc. reflexivity. }
    destruct o as [u|e|]; cbn [snd ret]; try exact Hw2.
    destruct (is_Exception e); cbn [snd ret]; exact Hw2.
  - exists []. split; [|reflexivity].
    destruct (is_Exception e); reflexivity.
Qed.

Lemma slew_to_altaz_command_first_witness :
  exists evs,
    trace (snd (slew_to_altaz 5 (PyFloat 45.0%float) (PyFloat 90.0%float)
                              (env_slewing 4) w_mount))
    = trace w_mount
      ++ (Invoke 2 "SlewToAltAz" [PyFloat 90.0%float; PyFloat 45.0%float],
          env_slewing 4 (trace w_mount)
                      (Invoke 2 "SlewToAltAz" [PyFloat 90.0%float; PyFloat 45.0%float]))
         :: evs /\
    slew_commands evs = [].
Proof.
  apply (slew_to_altaz_command_first
           5 (PyFloat 45.0%float) (PyFloat 90.0%float) (env_slewing 4) w_mount 2).
  reflexivity.
Defined.

End Mount.

(** ** The camera: connecting, configuring, capturing *)

Section CameraMore.

Import SVBonyCamera.

Lemma same_objects_refl (w : world) : same_objects w w.
Proof. repeat split. Qed.

Lemma same_objects_log (ev : event) (w w' : world) :
  same_objects w w' -> same_objects w (log ev w').
Proof. exact (fun H => H). Qed.

Lemma last_event_inv (evs : list event) (ev : event) :
  last_event evs = Some ev -> exists pre, evs = pre ++ [ev].
Proof.
  intros H. destruct evs as [|e0 evs0]; [discriminate H|].
  destruct (@exists_last _ (e0 :: evs0)) as [pre [x E]]; [discriminate|].
  rewrite E in H. unfold last_event in H.
  rewrite map_app in H. cbn [map] in H. rewrite last_last in H.
  inversion H; subst. exists pre. exact E.
Qed.

Lemma connect_camera_post (env : Env) (w : world) :
  post connect_camera env w (connect_camera_result w).
Proof.
  unfold connect_camera, connect_camera_result. wp. wp. wp.
  - unfold connect_ascom_camera. repeat wp;
      cbn in *; subst; repeat split; eauto.
  - unfold connect_sdk_camera. repeat wp;
      cbn in *; subst; repeat split; eauto.
Qed.

(** X6.  [connect_camera] always ends, on either driver.  When it returns,
    the camera counts as connected and a camera object is attached; when it
    raises, the flag [connected] is what it was before the call.  The choice
    of the driver and the telescope are never touched. *)
Theorem connect_camera_flag :
  forall env w,
    let o := fst (connect_camera env w) in
    let w' := snd (connect_camera env w) in
    cam_use_ascom w' = cam_use_ascom w /\
    tel_telescope w' = tel_telescope w /\
    match o with
    | Ret _ => cam_connected w' = true /\ exists h, cam_camera w' = PyObj h
    | Raise _ => cam_connected w' = cam_connected w
    | Diverge => False
    end.
Proof.
  intros env w. exact (connect_camera_post env w).
Qed.

(** X14.  Connecting and disconnecting fit together: after a
    [connect_camera] that returned, [disconnect_camera] issues exactly one
    device call, the disconnect of the driver in use on the very object that
    the connection attached; if the device accepts it the camera counts as
    disconnected again, if not the error reaches the caller and the camera
    still counts as connected. *)
Theorem connect_then_disconnect :
  forall env w v w1,
    connect_camera env w = (Ret v, w1) ->
    exists h,
      cam_camera w1 = PyObj h /\
      let c := camera_disconnect_call (cam_use_ascom w) h in
      disconnect_camera env w1
      = match env (trace w1) c with
        | Ok x => (Ret PyNone, set_cam_connected false (log (c, Ok x) w1))
        | Err e => (Raise e, log (c, Err e) w1)
        end.
Proof.
  intros env w v w1 H.
  pose proof (post_run _ _ _ _ (connect_camera_post env w) _ _ H) as P.
  destruct P as [Hua [_ [Hconn [h Hcam]]]].
  exists h. split; [exact Hcam|]. cbv zeta.
  rewrite disconnect_camera_run, Hconn, Hcam, Hua. reflexivity.
Qed.

Lemma connect_then_disconnect_witness :
  exists h,
    cam_camera (snd (connect_camera env_quiet_camera w0)) = PyObj h /\
    let c := camera_disconnect_call (cam_use_ascom w0) h in
    disconnect_camera env_quiet_camera (snd (connect_camera env_quiet_camera w0))
    = match env_quiet_camera (trace (snd (connect_camera env_quiet_camera w0))) c with
      | Ok x => (Ret PyNone,
                 set_cam_connected false
                   (log (c, Ok x) (snd (connect_camera env_quiet_camera w0))))
      | Err e => (Raise e, log (c, Err e) (snd (connect_camera env_quiet_camera w0)))
      end.
Proof.
  apply (connect_then_disconnect env_quiet_camera w0 PyNone).
  vm_compute. reflexivity.
Defined.

(** The polling loop of the ASCOM capture leaves the objects alone. *)
Lemma image_ready_loop_objects (env : Env) (w0 : world) :
  forall fuel w,
    same_objects w0 w ->
    post (image_ready_loop fuel) env w (fun _ w' => same_objects w0 w').
Proof.
  induction fuel as [|n IH]; intros w Hw; [exact Hw|].
  cbn [image_ready_loop]. repeat wp; try exact Hw.
  apply IH. exact Hw.
Qed.

Lemma configure_camera_objects (env : Env) (w : world) (exposure gain : pyval) :
  post (configure_camera exposure gain) env w (fun _ w' => same_objects w w').
Proof.
  unfold configure_camera. wp. wp. wp; [wp; apply same_objects_refl|].
  wp. wp. wp.
  - unfold set_ascom_settings. repeat wpc; repeat split.
  - unfold set_sdk_settings. repeat wp; repeat split.
Qed.

Lemma capture_image_objects (fuel : nat) (env : Env) (w : world) (output_file : pyval) :
  post (capture_image fuel output_file) env w (fun _ w' => same_objects w w').
Proof.
  unfold capture_image. wp. wp. wp; [wp; apply same_objects_refl|].
  wp. wp. wp.
  - unfold capture_ascom_image. wp. wp.
    destruct (cam_camera w); try (wp; apply same_objects_refl).
    repeat wp; try solve [repeat split].
    eapply post_weaken;
      [|apply (image_ready_loop_objects env w); repeat split].
    intros o w' Hw'. destruct o as [u|e|]; try exact Hw'.
    repeat wp; exact Hw'.
  - unfold capture_sdk_image. repeat wp; try solve [repeat split].
    match goal with
    | |- post (match ?v with _ => _ end) _ _ _ => destruct v
    end; repeat wp; repeat split.
Qed.

(** X7.  Configuring the camera and capturing an image never change the
    state of the objects: the driver choice, the camera object, the flag
    [connected] and the telescope are after the call what they were before,
    whether the call returned, raised or ran out of polls. *)
Theorem camera_operations_keep_objects :
  forall fuel env w exposure gain output_file,
    same_objects w (snd (configure_camera exposure gain env w)) /\
    same_objects w (snd (capture_image fuel output_file env w)).
Proof.
  intros fuel env w exposure gain output_file. split.
  - exact (configure_camera_objects env w exposure gain).
  - exact (capture_image_objects fuel env w output_file).
Qed.

(** X8.  On the ASCOM path only a refusal of the gain with [AttributeError]
    is tolerated.  If the driver refuses the exposure time, the call fails
    with that error and the gain is not tried; if it refuses the gain with
    an error of another class, the call fails with that error, the exposure
    time having been assigned. *)
Theorem configure_camera_ascom_failures :
  forall env w h exposure gain,
    cam_connected w = true ->
    cam_use_ascom w = true ->
    cam_camera w = PyObj h ->
    let c1 := SetAttr h "ExposureTime" exposure in
    let c2 := SetAttr h "Gain" gain in
    (forall e,
       env (trace w) c1 = Err e ->
       configure_camera exposure gain env w = (Raise e, log (c1, Err e) w)) /\
    (forall v e,
       env (trace w) c1 = Ok v ->
       env (trace (log (c1, Ok v) w)) c2 = Err e ->
       is_AttributeError e = false ->
       configure_camera exposure gain env w
       = (Raise e, log (c2, Err e) (log (c1, Ok v) w))).
Proof.
  intros env w h exposure gain Hconn Hascom Hcam c1 c2. subst c1 c2.
  unfold configure_camera, bind, get. cbv beta iota.
  rewrite Hconn. cbn [negb]. cbv beta iota. rewrite Hascom.
  unfold set_ascom_settings, try_except, bind, get. cbv beta iota.
  rewrite Hcam. unfold setattr. rewrite ext_run.
  split.
  - intros e He. rewrite He. reflexivity.
  - intros v e Hv He Hcls. rewrite Hv.
    cbn [cam_camera log]. rewrite Hcam, ext_run, He, Hcls. reflexivity.
Qed.

Lemma configure_camera_ascom_failures_witness :
  configure_camera (PyFloat 2.0%float) (PyInt 50) env_camera_fault w_camera
  = (Raise (Exc com_error "invalid exposure"),
     log (SetAttr 3 "ExposureTime" (PyFloat 2.0%float),
          Err (Exc com_error "invalid exposure")) w_camera).
Proof.
  apply (configure_camera_ascom_failures
           env_camera_fault w_camera 3 (PyFloat 2.0%float) (PyInt 50));
    reflexivity.
Defined.

(** X9.  On the SDK path the exposure is set first and the gain second, and
    nothing is tolerated: if [set_exposure] fails the gain is not tried; if
    [set_gain] fails, with an error of any class, the call fails after the
    exposure has been applied; [None] is returned only when both were
    accepted. *)
Theorem configure_camera_sdk_run :
  forall env w h exposure gain,
    cam_connected w = true ->
    cam_use_ascom w = false ->
    cam_camera w = PyObj h ->
    let c1 := Invoke h "set_exposure" [exposure] in
    let c2 := Invoke h "set_gain" [gain] in
    configure_camera exposure gain env w
    = match env (trace w) c1 with
      | Err e => (Raise e, log (c1, Err e) w)
      | Ok v =>
          match env (trace (log (c1, Ok v) w)) c2 with
          | Err e => (Raise e, log (c2, Err e) (log (c1, Ok v) w))
          | Ok v' => (Ret PyNone, log (c2, Ok v') (log (c1, Ok v) w))
          end
      end.
Proof.
  intros env w h exposure gain Hconn Hsdk Hcam c1 c2. subst c1 c2.
  unfold configure_camera, bind, get. cbv beta iota.
  rewrite Hconn. cbn [negb]. cbv beta iota. rewrite Hsdk.
  unfold set_sdk_settings, bind, get. cbv beta iota.
  rewrite Hcam. unfold invoke. rewrite ext_run.
  destruct (env (trace w) (Invoke h "set_exposure" [exposure])) as [v|e];
    [|reflexivity].
  cbn [cam_camera log]. rewrite Hcam, ext_run.
  destruct (env (trace (log (Invoke h "set_exposure" [exposure], Ok v) w))
                (Invoke h "set_gain" [gain])) as [v'|e]; reflexivity.
Qed.

Lemma configure_camera_sdk_run_witness :
  configure_camera (PyInt 2000) (PyInt 50) env_camera_fault w_sdk_camera
  = (Raise (Exc com_error "invalid exposure"),
     log (Invoke 4 "set_exposure" [PyInt 2000],
          Err (Exc com_error "invalid exposure")) w_sdk_camera).
Proof.
  apply (configure_camera_sdk_run
           env_camera_fault w_sdk_camera 4 (PyInt 2000) (PyInt 50));
    reflexivity.
Defined.

(** X10.  On the SDK path [capture_image] returns [None] in three different
    situations: the camera delivered no frame, and then nothing is written;
    the frame was handed to [cv2.imwrite], whatever [imwrite] answered (its
    result, false when the file could not be written, is not looked at).
    The caller cannot tell from the result whether an image file exists. *)
Theorem capture_image_sdk_silent :
  forall fuel env w h output_file,
    cam_connected w = true ->
    cam_use_ascom w = false ->
    cam_camera w = PyObj h ->
    let c1 := Invoke h "capture_frame" [] in
    (env (trace w) c1 = Ok PyNone ->
       capture_image fuel output_file env w
       = (Ret PyNone, log (c1, Ok PyNone) w)) /\
    (forall frame written,
       env (trace w) c1 = Ok frame ->
       frame <> PyNone ->
       env (trace (log (c1, Ok frame) w)) (ImWrite output_file frame) = Ok written ->
       capture_image fuel output_file env w
       = (Ret PyNone,
          log (ImWrite output_file frame, Ok written) (log (c1, Ok frame) w))).
Proof.
  intros fuel env w h output_file Hconn Hsdk Hcam c1. subst c1.
  unfold capture_image, bind, get. cbv beta iota.
  rewrite Hconn. cbn [negb]. cbv beta iota. rewrite Hsdk.
  unfold capture_sdk_image, bind, get. cbv beta iota.
  rewrite Hcam. unfold invoke. rewrite ext_run.
  split.
  - intros Hnone. rewrite Hnone. reflexivity.
  - intros frame written Hframe Hsome Hw. rewrite Hframe.
    destruct frame; try congruence; rewrite ext_run, Hw; reflexivity.
Qed.

Lemma capture_image_sdk_silent_witness :
  capture_image 3 (PyStr "captured_image.png") env_quiet w_sdk_camera
  = (Ret PyNone, log (Invoke 4 "capture_frame" [], Ok PyNone) w_sdk_camera).
Proof.
  apply (capture_image_sdk_silent
           3 env_quiet w_sdk_camera 4 (PyStr "captured_image.png"));
    reflexivity.
Defined.

(** What a run of the polling loop of the ASCOM capture leaves behind: when
    it ends normally, its last external call is a reading of [ImageReady]
    that came back true. *)
Lemma image_ready_loop_trace (env : Env) :
  forall fuel w o w',
    image_ready_loop fuel env w = (o, w') ->
    exists evs,
      trace w' = trace w ++ evs /\
      match o with
      | Ret _ =>
          exists h r, cam_camera w = PyObj h /\
                      last_event evs = Some (GetAttr h "ImageReady", Ok r) /\
                      truthy r = true
      | _ => True
      end.
Proof.
  induction fuel as [|n IH]; intros w o w' H.
  - cbn in H. inversion H; subst. exists []. rewrite app_nil_r. auto.
  - cbn [image_ready_loop] in H. unfold bind, get in H. cbv beta iota in H.
    destruct (cam_camera w) as [| | | | | | |h] eqn:Hc;
      try solve [cbn in H; inversion H; subst; exists []; rewrite app_nil_r; auto].
    unfold getattr in H. rewrite ext_run in H.
    destruct (env (trace w) (GetAttr h "ImageReady")) as [r|e] eqn:Hr.
    + destruct (truthy r) eqn:Htr; cbn [negb] in H.
      * cbn in H. inversion H; subst.
        exists [(GetAttr h "ImageReady", Ok r)]. split; [reflexivity|].
        exists h, r. auto.
      * rewrite ext_run in H.
        match type of H with
        | context [env ?t (Sleep ?s)] => destruct (env t (Sleep s)) as [s0|e] eqn:Hs
        end.
        -- apply IH in H. destruct H as [evs [Htr' Ho]].
           exists ((GetAttr h "ImageReady", Ok r)
                     :: (Sleep (PyFloat 0.1%float), Ok s0) :: evs).
           split.
           { rewrite Htr'. cbn [trace log]. rewrite <- !app_assoc. reflexivity. }
           destruct o as [u|e|]; try exact I.
           destruct Ho as [h' [r' [Hh' [Hl Hf]]]]. cbn [cam_camera log] in Hh'.
           exists h', r'. split; [congruence|]. split; [|exact Hf].
           destruct evs as [|ev evs]; [discriminate Hl|]. exact Hl.
        -- inversion H; subst.
           exists [(GetAttr h "ImageReady", Ok r);
                   (Sleep (PyFloat 0.1%float), Err e)].
           split; [cbn [trace log]; rewrite <- app_assoc; reflexivity|exact I].
    + inversion H; subst.
      exists [(GetAttr h "ImageReady", Err e)]. split; [reflexivity|exact I].
Qed.

(** X11.  When the ASCOM capture returns, the exposure was started with the
    exposure time read back from the driver and with [False] as second
    argument, the image was fetched only after a reading of [ImageReady]
    that came back true, and what was written to [output_file] is the array
    conversion of the driver's [ImageArray]; these are the first two and the
    last four external calls of the run. *)
Theorem capture_ascom_image_trace :
  forall fuel env w output_file v w',
    capture_ascom_image fuel output_file env w = (Ret v, w') ->
    exists h e s polls r a d x,
      cam_camera w = PyObj h /\
      truthy r = true /\
      trace w'
      = trace w
        ++ (GetAttr h "ExposureTime", Ok e)
        :: (Invoke h "StartExposure" [e; PyBool false], Ok s)
        :: polls
        ++ [ (GetAttr h "ImageReady", Ok r);
             (GetAttr h "ImageArray", Ok a);
             (NpArray a, Ok d);
             (ImWrite output_file d, Ok x) ].
Proof.
  intros fuel env w output_file v w' H.
  unfold capture_ascom_image in H. unfold bind at 1 in H. unfold get at 1 in H.
  cbv beta iota in H.
  destruct (cam_camera w) as [| | | | | | |h] eqn:Hcam; try discriminate H.
  unfold bind at 1 in H. unfold getattr at 1 in H. rewrite ext_run in H.
  destruct (env (trace w) (GetAttr h "ExposureTime")) as [e|e0] eqn:He;
    [|discriminate H].
  set (w1 := log (GetAttr h "ExposureTime", Ok e) w) in *.
  unfold bind at 1 in H. unfold invoke at 1 in H. rewrite ext_run in H.
  destruct (env (trace w1) (Invoke h "StartExposure" [e; PyBool false]))
    as [s|e0] eqn:Hs; [|discriminate H].
  set (w2 := log (Invoke h "StartExposure" [e; PyBool false], Ok s) w1) in *.
  unfold bind at 1 in H.
  destruct (image_ready_loop fuel env w2) as [[u|e0|] w3] eqn:Hl;
    try discriminate H.
  pose proof (image_ready_loop_objects env w2 fuel w2 (same_objects_refl w2)) as Hobj.
  unfold post in Hobj. rewrite Hl in Hobj. cbn [fst snd] in Hobj.
  destruct Hobj as [_ [Hcam3 _]].
  destruct (image_ready_loop_trace env fuel w2 _ _ Hl)
    as [evs [Htr [h' [r [Hh' [Hlast Hready]]]]]].
  assert (Hh : h' = h) by (cbn in Hh'; congruence). subst h'.
  destruct (last_event_inv _ _ Hlast) as [polls Hevs].
  unfold bind at 1 in H. unfold get at 1 in H. cbv beta iota in H.
  assert (Hc3 : cam_camera w3 = PyObj h) by (rewrite Hcam3; cbn; exact Hcam).
  rewrite Hc3 in H.
  unfold bind at 1 in H. unfold getattr at 1 in H. rewrite ext_run in H.
  destruct (env (trace w3) (GetAttr h "ImageArray")) as [a|e0] eqn:Ha;
    [|discriminate H].
  unfold bind at 1 in H. rewrite ext_run in H.
  match type of H with
  | context [env ?t (NpArray a)] => destruct (env t (NpArray a)) as [d|e0] eqn:Hd
  end; [|discriminate H].
  unfold bind at 1 in H. rewrite ext_run in H.
  match type of H with
  | context [env ?t (ImWrite output_file d)] =>
      destruct (env t (ImWrite output_file d)) as [x|e0] eqn:Hx
  end; [|discriminate H].
  cbn [ret] in H. inversion H; subst v w'.
  exists h, e, s, polls, r, a, d, x.
  split; [reflexivity|]. split; [exact Hready|].
  cbn [trace log]. rewrite Htr, Hevs. subst w2 w1. cbn [trace log].
  rewrite <- !app_assoc. reflexivity.
Qed.

Lemma capture_ascom_image_trace_witness :
  exists h e s polls r a d x,
    cam_camera w_camera = PyObj h /\
    truthy r = true /\
    trace (snd (capture_ascom_image 3 (PyStr "captured_image.png")
                                    (env_session 83.82%float (-5.39)%float) w_camera))
    = trace w_camera
      ++ (GetAttr h "ExposureTime", Ok e)
      :: (Invoke h "StartExposure" [e; PyBool false], Ok s)
      :: polls
      ++ [ (GetAttr h "ImageReady", Ok r);
           (GetAttr h "ImageArray", Ok a);
           (NpArray a, Ok d);
           (ImWrite (PyStr "captured_image.png") d, Ok x) ].
Proof.
  apply (capture_ascom_image_trace
           3 (env_session 83.82%float (-5.39)%float) w_camera
           (PyStr "captured_image.png") PyNone).
  vm_compute. reflexivity.
Defined.

End CameraMore.

(** ** The programs of the two device modules *)

Section Programs.

Variable env : Env.
Hypothesis env_Exception :
  forall hist c e, env hist c = Err e -> is_Exception e = true.

Lemma post_and {A} (m : M A) (w : world) (Q1 Q2 : outcome A -> world -> Prop) :
  post m env w Q1 -> post m env w Q2 ->
  post m env w (fun o w' => Q1 o w' /\ Q2 o w').
Proof. unfold post. auto. Qed.

(** Closing the goals that a run leaves for [None_or_Exception]. *)
Ltac safe :=
  cbn [None_or_Exception];
  first [ reflexivity
        | exact I
        | eapply env_Exception; eassumption ].

Lemma connect_camera_safe (w : world) :
  post SVBonyCamera.connect_camera env w (fun o _ => None_or_Exception o).
Proof.
  unfold SVBonyCamera.connect_camera. wp. wp. wp.
  - unfold SVBonyCamera.connect_ascom_camera. repeat wp; safe.
  - unfold SVBonyCamera.connect_sdk_camera. repeat wp; safe.
Qed.

Lemma configure_camera_safe (w : world) (exposure gain : pyval) :
  post (SVBonyCamera.configure_camera exposure gain) env w
       (fun o _ => None_or_Exception o).
Proof.
  unfold SVBonyCamera.configure_camera. wp. wp. wp; [wp; safe|].
  wp. wp. wp.
  - unfold SVBonyCamera.set_ascom_settings. repeat wpc; safe.
  - unfold SVBonyCamera.set_sdk_settings. repeat wp; safe.
Qed.

Lemma image_ready_loop_safe :
  forall fuel w,
    post (SVBonyCamera.image_ready_loop fuel) env w
         (fun o _ => match o with Raise e => is_Exception e = true | _ => True end).
Proof.
  induction fuel as [|n IH]; intros w; [exact I|].
  cbn [SVBonyCamera.image_ready_loop]. repeat wp; try safe.
  apply IH.
Qed.

Lemma capture_image_safe (fuel : nat) (w : world) (output_file : pyval) :
  post (SVBonyCamera.capture_image fuel output_file) env w
       (fun o _ => None_or_Exception o).
Proof.
  unfold SVBonyCamera.capture_image. wp. wp. wp; [wp; safe|].
  wp. wp. wp.
  - unfold SVBonyCamera.capture_ascom_image. wp. wp.
    destruct (cam_camera w); try (wp; safe).
    repeat wp; try safe.
    eapply post_weaken; [|apply image_ready_loop_safe].
    intros o w' Ho. destruct o as [u|e|]; try exact Ho; try exact I.
    repeat wp; safe.
  - unfold SVBonyCamera.capture_sdk_image. repeat wp; try safe.
    match goal with
    | |- post (match ?v with _ => _ end) _ _ _ => destruct v
    end; repeat wp; safe.
Qed.

(** Calls by name of methods that the class defines run the method. *)
Lemma call_connect_camera (fuel : nat) (w : world) :
  call_method (SVBonyCamera_class fuel) "connect_camera" [] [] env w
  = SVBonyCamera.connect_camera env w.
Proof. reflexivity. Qed.

Lemma call_configure_camera (fuel : nat) (w : world) (exposure gain : pyval) :
  call_method (SVBonyCamera_class fuel) "configure_camera" []
              [("exposure", exposure); ("gain", gain)] env w
  = SVBonyCamera.configure_camera exposure gain env w.
Proof. reflexivity. Qed.

Lemma call_capture_image (fuel : nat) (w : world) (output_file : pyval) :
  call_method (SVBonyCamera_class fuel) "capture_image" []
              [("output_file", output_file)] env w
  = SVBonyCamera.capture_image fuel output_file env w.
Proof. reflexivity. Qed.

Lemma call_disconnect_camera (fuel : nat) (w : world) :
  call_method (SVBonyCamera_class fuel) "disconnect_camera" [] [] env w
  = SVBonyCamera.disconnect_camera env w.
Proof. reflexivity. Qed.

Lemma post_same_run {A} (m m' : M A) (w : world) (Q : outcome A -> world -> Prop) :
  m env w = m' env w -> post m' env w Q -> post m env w Q.
Proof. unfold post. intros ->. exact (fun H => H). Qed.

Lemma last_event_last (tr : list event) (ev : event) :
  last_event (tr ++ [ev]) = Some ev.
Proof. unfold last_event. rewrite map_app. cbn [map]. apply last_last. Qed.

(** The three calls of the [try] suite of the camera program, started on a
    camera that is not connected. *)
Lemma svbony_try_suite (fuel : nat) (w : world) (exposure gain output_file : pyval) :
  cam_use_ascom w = true ->
  cam_connected w = false ->
  post (call_method (SVBonyCamera_class fuel) "connect_camera" [] [] ;;;
        call_method (SVBonyCamera_class fuel) "configure_camera" []
                    [("exposure", exposure); ("gain", gain)] ;;;
        call_method (SVBonyCamera_class fuel) "capture_image" []
                    [("output_file", output_file)])
       env w
       (fun o w' =>
          None_or_Exception o /\
          cam_use_ascom w' = true /\
          (cam_connected w' = true -> exists h, cam_camera w' = PyObj h)).
Proof.
  intros Hua Hoff.
  apply post_bind. eapply post_same_run; [apply call_connect_camera|].
  eapply post_weaken;
    [|apply post_and; [apply connect_camera_post|apply connect_camera_safe]].
  intros o1 w1 [[Hua1 [_ Hres]] Hs1].
  destruct o1 as [v1|e1|]; [| |destruct Hres].
  2:{ split; [exact Hs1|]. split; [congruence|].
      intros Hon. congruence. }
  destruct Hres as [Hon1 Hcam1].
  apply post_bind. eapply post_same_run; [apply call_configure_camera|].
  eapply post_weaken;
    [|apply post_and; [apply configure_camera_objects|apply configure_camera_safe]].
  intros o2 w2 [[Hua2 [Hcam2 _]] Hs2].
  assert (Hinv2 : cam_use_ascom w2 = true /\
                  (cam_connected w2 = true -> exists h, cam_camera w2 = PyObj h)).
  { split; [congruence|]. intros _. rewrite Hcam2. exact Hcam1. }
  destruct o2 as [v2|e2|]; try (split; [exact Hs2|exact Hinv2]).
  eapply post_same_run; [apply call_capture_image|].
  eapply post_weaken;
    [|apply post_and; [apply capture_image_objects|apply capture_image_safe]].
  intros o3 w3 [[Hua3 [Hcam3 _]] Hs3].
  split; [exact Hs3|]. split; [destruct Hinv2; congruence|].
  intros _. rewrite Hcam3, Hcam2. exact Hcam1.
Qed.

(** X12.  The program of svbony_camera.py cleans up after itself.  With
    drivers whose failures are exceptions of class [Exception], no error of
    connecting, configuring or capturing leaves the program; whenever the
    program returns, the camera counts as disconnected; and the only error
    that can leave it is a refusal of the final disconnect by the device, in
    which case the camera still counts as connected. *)
Theorem svbony_camera_main_cleanup :
  forall fuel w,
    let o := fst (svbony_camera_main fuel env w) in
    let w' := snd (svbony_camera_main fuel env w) in
    match o with
    | Ret v => v = PyNone /\ cam_connected w' = false
    | Raise e =>
        cam_connected w' = true /\
        exists h, last_event (trace w')
                  = Some (SetAttr h "Connected" (PyBool false), Err e)
    | Diverge => True
    end.
Proof.
  intros fuel w. cbv zeta.
  change (post (svbony_camera_main fuel) env w
            (fun o w' =>
               match o with
               | Ret v => v = PyNone /\ cam_connected w' = false
               | Raise e =>
                   cam_connected w' = true /\
                   exists h, last_event (trace w')
                             = Some (SetAttr h "Connected" (PyBool false), Err e)
               | Diverge => True
               end)).
  unfold svbony_camera_main. wp. unfold SVBonyCamera.init.
  wp. wp. wp. wp. wp. wp.
  apply post_try_finally. apply post_try_except.
  eapply post_weaken; [|apply svbony_try_suite; reflexivity].
  intros o w2 [Ho [Hua Hcam]].
  assert (Hfin : forall v,
             post (call_method (SVBonyCamera_class fuel) "disconnect_camera" [] [])
                  env w2
                  (fun o' w'' =>
                     match o' with
                     | Ret _ => v = PyNone -> v = PyNone /\ cam_connected w'' = false
                     | Raise e' =>
                         cam_connected w'' = true /\
                         exists h, last_event (trace w'')
                                   = Some (SetAttr h "Connected" (PyBool false), Err e')
                     | Diverge => True
                     end)).
  { intros v. eapply post_same_run; [apply call_disconnect_camera|].
    unfold post. rewrite disconnect_camera_run.
    destruct (cam_connected w2) eqn:Hon; [|cbn; auto].
    destruct (Hcam eq_refl) as [h Hh]. rewrite Hh, Hua. cbv zeta.
    cbn [camera_disconnect_call].
    destruct (env (trace w2) (SetAttr h "Connected" (PyBool false))) as [x|e'].
    - cbn. auto.
    - cbn [fst snd]. split; [exact Hon|]. exists h. apply last_event_last. }
  destruct o as [v|e|]; cbn [None_or_Exception] in Ho.
  - eapply post_weaken; [|apply (Hfin v)].
    intros o' w'' H. destruct o' as [u|e'|]; auto.
  - rewrite Ho. apply post_ret.
    eapply post_weaken; [|apply (Hfin PyNone)].
    intros o' w'' H. destruct o' as [u|e'|]; auto.
  - exact I.
Qed.

(** The value of a [slew_to_altaz] that returns is [None]. *)
Lemma slew_to_altaz_value (fuel : nat) (altitude azimuth v : pyval) (w w' : world) :
  AltAzTelescopeController.slew_to_altaz fuel altitude azimuth env w = (Ret v, w') ->
  v = PyNone.
Proof.
  intros H.
  assert (P : post (AltAzTelescopeController.slew_to_altaz fuel altitude azimuth) env w
                   (fun o _ => forall v, o = Ret v -> v = PyNone)).
  { unfold AltAzTelescopeController.slew_to_altaz.
    apply post_try_except. apply post_bind. apply post_get.
    apply post_bind.
    assert (K : forall w1 : world,
               post (AltAzTelescopeController.slewing_loop fuel ;;; ret PyNone) env w1
                    (fun o w'0 =>
                       match o with
                       | Raise e =>
                           if is_Exception e
                           then post (ret PyNone) env w'0
                                     (fun o0 _ => forall v0, o0 = Ret v0 -> v0 = PyNone)
                           else forall v0, Raise e = Ret v0 -> v0 = PyNone
                       | _ => forall v0, o = Ret v0 -> v0 = PyNone
                       end)).
    { intros w1. apply post_bind. unfold post.
      destruct (AltAzTelescopeController.slewing_loop fuel env w1) as [[u|e|] w2];
        cbn [fst snd].
      - intros v0 Hv0. inversion Hv0. reflexivity.
      - destruct (is_Exception e).
        + intros v0 Hv0. inversion Hv0. reflexivity.
        + intros v0 Hv0. discriminate Hv0.
      - intros v0 Hv0. discriminate Hv0. }
    wp.
    - wp; [apply K|].
      destruct (is_Exception e).
      + intros v0 Hv0. inversion Hv0. reflexivity.
      + intros v0 Hv0. discriminate Hv0.
    - cbn [is_Exception exc_cls]. intros v0 Hv0. inversion Hv0. reflexivity. }
  exact (post_run _ _ _ _ P _ _ H v eq_refl).
Qed.

Lemma ascom_telescope_main_unfold (fuel : nat) (w : world) :
  ascom_telescope_main fuel env w
  = match AltAzTelescopeController.connect_to_telescope
            env (set_tel_telescope PyNone w) with
    | (Ret c, w2) =>
        if truthy c
        then try_finally
               (AltAzTelescopeController.slew_to_altaz
                  fuel (PyFloat 45.0%float) (PyFloat 90.0%float))
               AltAzTelescopeController.disconnect_telescope env w2
        else (Ret PyNone, w2)
    | (Raise e, w2) => (Raise e, w2)
    | (Diverge, w2) => (Diverge, w2)
    end.
Proof.
  assert (E0 : AltAzTelescopeController.init env w
               = (Ret PyNone, set_tel_telescope PyNone w)) by reflexivity.
  unfold ascom_telescope_main. unfold bind at 1. rewrite E0.
  unfold bind at 1.
  change (call_method (AltAzTelescopeController_class fuel) "connect_to_telescope"
                      [] [] env (set_tel_telescope PyNone w))
    with (AltAzTelescopeController.connect_to_telescope
            env (set_tel_telescope PyNone w)).
  destruct (AltAzTelescopeController.connect_to_telescope
              env (set_tel_telescope PyNone w)) as [[c|e|] w2]; try reflexivity.
  destruct (truthy c); reflexivity.
Qed.

(** X13.  The program of ascom_telescope.py, with drivers whose failures
    are exceptions of class [Exception], whenever it ends: if the connection
    was refused, nothing else is sent, neither a slew nor a disconnect; if
    it was made, the slew has returned and [disconnect_telescope] has been
    run on the state that the slew left, and only an error of that
    disconnect can leave the program. *)
Theorem ascom_telescope_main_run :
  forall fuel w o w',
    ascom_telescope_main fuel env w = (o, w') ->
    o <> Diverge ->
    let r := AltAzTelescopeController.connect_to_telescope
               env (set_tel_telescope PyNone w) in
    (fst r = Ret (PyBool false) -> o = Ret PyNone /\ w' = snd r) /\
    (fst r = Ret (PyBool true) ->
       exists w3,
         AltAzTelescopeController.slew_to_altaz
           fuel (PyFloat 45.0%float) (PyFloat 90.0%float) env (snd r)
         = (Ret PyNone, w3) /\
         w' = snd (AltAzTelescopeController.disconnect_telescope env w3) /\
         o = match fst (AltAzTelescopeController.disconnect_telescope env w3) with
             | Ret _ => Ret PyNone
             | r' => r'
             end).
Proof.
  intros fuel w o w' H Hend. cbv zeta.
  rewrite ascom_telescope_main_unfold in H.
  destruct (AltAzTelescopeController.connect_to_telescope
              env (set_tel_telescope PyNone w)) as [o1 w2].
  cbn [fst snd]. split; intros Ho1; subst o1; cbn [truthy] in H.
  - inversion H. auto.
  - unfold try_finally in H.
    destruct (AltAzTelescopeController.slew_to_altaz
                fuel (PyFloat 45.0%float) (PyFloat 90.0%float) env w2)
      as [[v|e|] w3] eqn:Hslew.
    + rewrite (slew_to_altaz_value _ _ _ _ _ _ Hslew) in *.
      exists w3. split; [reflexivity|].
      destruct (AltAzTelescopeController.disconnect_telescope env w3)
        as [[u|e'|] w4]; inversion H; auto.
    + exfalso. exact (slew_to_altaz_no_raise env env_Exception _ _ _ _ _ _ Hslew).
    + inversion H. subst o. exfalso. apply Hend. reflexivity.
Qed.

End Programs.

Lemma ascom_telescope_main_run_witness :
  exists w3,
    AltAzTelescopeController.slew_to_altaz
      3 (PyFloat 45.0%float) (PyFloat 90.0%float)
      (env_session 83.82%float (-5.39)%float)
      (snd (AltAzTelescopeController.connect_to_telescope
              (env_session 83.82%float (-5.39)%float) (set_tel_telescope PyNone w0)))
    = (Ret PyNone, w3) /\
    snd (ascom_telescope_main 3 (env_session 83.82%float (-5.39)%float) w0)
    = snd (AltAzTelescopeController.disconnect_telescope
             (env_session 83.82%float (-5.39)%float) w3) /\
    fst (ascom_telescope_main 3 (env_session 83.82%float (-5.39)%float) w0)
    = match fst (AltAzTelescopeController.disconnect_telescope
                   (env_session 83.82%float (-5.39)%float) w3) with
      | Ret _ => Ret PyNone
      | r' => r'
      end.
Proof.
  apply (ascom_telescope_main_run
           _ (env_session_Exception 83.82%float (-5.39)%float) 3 w0
           (fst (ascom_telescope_main 3 (env_session 83.82%float (-5.39)%float) w0))
           (snd (ascom_telescope_main 3 (env_session 83.82%float (-5.39)%float) w0))).
  - vm_compute. reflexivity.
  - vm_compute. discriminate.
  - vm_compute. reflexivity.
Defined.

Lemma svbony_camera_main_cleanup_witness :
  match fst (svbony_camera_main 3 (env_session 83.82%float (-5.39)%float) w0) with
  | Ret v =>
      v = PyNone /\
      cam_connected (snd (svbony_camera_main 3 (env_session 83.82%float (-5.39)%float) w0))
      = false
  | Raise e =>
      cam_connected (snd (svbony_camera_main 3 (env_session 83.82%float (-5.39)%float) w0))
      = true /\
      exists h,
        last_event
          (trace (snd (svbony_camera_main 3 (env_session 83.82%float (-5.39)%float) w0)))
        = Some (SetAttr h "Connected" (PyBool false), Err e)
  | Diverge => True
  end.
Proof.
  apply (svbony_camera_main_cleanup _ (env_session_Exception 83.82%float (-5.39)%float) 3 w0).
Defined.

(** ** The plate solver: headers, strategies, paths *)

Section SolverMore.

Import PlateSolver.

(** X15.  [parse_wcs] reads the header once and needs both keys: without
    [CRVAL1] it raises [KeyError] for [CRVAL1], with [CRVAL1] but without
    [CRVAL2] it raises [KeyError] for [CRVAL2], and with both it returns the
    pair of their values. *)
Theorem parse_wcs_keys :
  forall env w wcs kvs,
    env (trace w) (FitsHeader wcs) = Ok (PyDict kvs) ->
    let w1 := log (FitsHeader wcs, Ok (PyDict kvs)) w in
    parse_wcs wcs env w
    = match assoc "CRVAL1" kvs, assoc "CRVAL2" kvs with
      | None, _ => (Raise (Exc KeyError "CRVAL1"), w1)
      | Some _, None => (Raise (Exc KeyError "CRVAL2"), w1)
      | Some ra, Some dec => (Ret (PyTuple [ra; dec]), w1)
      end.
Proof.
  intros env w wcs kvs H w1. subst w1.
  unfold parse_wcs, bind. rewrite ext_run, H. unfold getitem.
  destruct (assoc "CRVAL1" kvs) as [ra|]; [|reflexivity].
  destruct (assoc "CRVAL2" kvs) as [dec|]; reflexivity.
Qed.

Lemma parse_wcs_keys_witness :
  parse_wcs "plate_solve_image.wcs" env_wcs_partial w0
  = (Raise (Exc KeyError "CRVAL2"),
     log (FitsHeader "plate_solve_image.wcs",
          Ok (PyDict [("CRVAL1", PyFloat 83.82%float)])) w0).
Proof.
  apply (parse_wcs_keys env_wcs_partial w0 "plate_solve_image.wcs"
                        [("CRVAL1", PyFloat 83.82%float)]).
  reflexivity.
Defined.

Lemma replace_from_absent (old new : string) :
  forall s, contains old s = false -> replace_from old new s 0 = s.
Proof.
  induction s as [|c s IH]; intros H; [reflexivity|].
  cbn [contains] in H. apply orb_false_iff in H. destruct H as [Hp Hc].
  cbn [replace_from]. rewrite Hp, (IH Hc). reflexivity.
Qed.

(** X16.  An image path in which [".png"] does not occur is its own WCS
    path: after the solver has run, [solve_image] tests the existence of the
    image file itself and, if it exists, reads the image as the WCS file. *)
Theorem solve_image_without_png :
  forall self image_path env w st,
    local_solver self = true ->
    contains ".png" image_path = false ->
    env (trace w) (OsSystem (solve_command image_path)) = Ok st ->
    let w1 := log (OsSystem (solve_command image_path), Ok st) w in
    solve_image self image_path env w
    = match env (trace w1) (PathExists image_path) with
      | Ok b =>
          if truthy b
          then parse_wcs image_path env (log (PathExists image_path, Ok b) w1)
          else (Raise no_wcs, log (PathExists image_path, Ok b) w1)
      | Err e => (Raise e, log (PathExists image_path, Err e) w1)
      end.
Proof.
  intros self image_path env w st Hlocal Habsent Hsys w1. subst w1.
  unfold solve_image. rewrite Hlocal. unfold bind.
  rewrite ext_run, Hsys.
  unfold str_replace. rewrite (replace_from_absent ".png" ".wcs" _ Habsent).
  rewrite ext_run.
  destruct (env (trace (log (OsSystem (solve_command image_path), Ok st) w))
                (PathExists image_path)) as [b|e]; [|reflexivity].
  destruct (truthy b); reflexivity.
Qed.

Lemma solve_image_without_png_witness :
  solve_image (mk true PyNone) "frame.fits" env_no_wcs w0
  = (Raise no_wcs,
     log (PathExists "frame.fits", Ok (PyBool false))
         (log (OsSystem (solve_command "frame.fits"), Ok (PyInt 256)) w0)).
Proof.
  apply (solve_image_without_png (mk true PyNone) "frame.fits" env_no_wcs w0 (PyInt 256));
    reflexivity.
Defined.

Lemma post_getitem (v : pyval) (k : string) (env : Env) (w : world)
      (Q : outcome pyval -> world -> Prop) :
  (forall x, Q (Ret x) w) ->
  (forall e, Q (Raise e) w) ->
  (forall h, post (ext (Invoke h "__getitem__" [PyStr k])) env w Q) ->
  post (getitem v k) env w Q.
Proof.
  intros Hret Hraise Hobj. unfold getitem.
  destruct v as [| | | | | |kvs|h]; try apply Hraise.
  - destruct (assoc k kvs); [apply Hret|apply Hraise].
  - apply Hobj.
Qed.

(** One step of a run of the solver. *)
Ltac wps :=
  first
    [ wp
    | lazymatch goal with
      | |- post (getitem _ _) _ _ _ => apply post_getitem; [intros ?|intros ?|intros ?]
      | |- post (parse_wcs _) _ _ _ => unfold parse_wcs
      end ].

(** The events of one kind in a trace are untouched by a call of another
    kind. *)
Ltac same_filter :=
  cbn [trace log]; rewrite ?filter_app; cbn [filter is_online_call is_local_call fst];
  rewrite ?app_nil_r; reflexivity.

(** X17.  The two solving strategies are never mixed.  A solver built as
    local never calls the online service, a solver built as online never
    runs [solve-field] and never looks at the file system, and an online
    solver asked for without a key is not built at all: [ValueError] is
    raised before anything is called. *)
Theorem solver_strategies_never_mixed :
  forall key local env w image_path,
    let r := (s <- init key local ;; solve_image s image_path) env w in
    (local = true ->
       filter is_online_call (trace (snd r)) = filter is_online_call (trace w)) /\
    (local = false ->
       filter is_local_call (trace (snd r)) = filter is_local_call (trace w)) /\
    (local = false -> truthy key = false -> r = (Raise no_api_key, w)).
Proof.
  intros key local env w image_path. cbv zeta.
  split; [|split].
  - intros ->.
    change (post (s <- init key true ;; solve_image s image_path) env w
              (fun _ w' => filter is_online_call (trace w')
                           = filter is_online_call (trace w))).
    cbn [init negb]. wp. wp. unfold solve_image. cbn [local_solver].
    repeat wps; same_filter.
  - intros ->.
    change (post (s <- init key false ;; solve_image s image_path) env w
              (fun _ w' => filter is_local_call (trace w')
                           = filter is_local_call (trace w))).
    cbn [init negb]. wp. destruct (truthy key); cbn [negb]; [|wp; reflexivity].
    wp. unfold solve_image. cbn [local_solver api_key].
    repeat wps; same_filter.
  - intros -> Hkey. unfold bind. cbn [init negb]. rewrite Hkey. reflexivity.
Qed.

Lemma solver_strategies_never_mixed_witness :
  filter is_online_call
         (trace (snd ((s <- init PyNone true ;; solve_image s output_image)
                        (env_wcs 83.82%float (-5.39)%float) w0)))
  = filter is_online_call (trace w0) /\
  (s <- init PyNone false ;; solve_image s output_image)
    (env_wcs 83.82%float (-5.39)%float) w0
  = (Raise no_api_key, w0).
Proof.
  split.
  - apply (solver_strategies_never_mixed
             PyNone true (env_wcs 83.82%float (-5.39)%float) w0 output_image).
    reflexivity.
  - apply (solver_strategies_never_mixed
             PyNone false (env_wcs 83.82%float (-5.39)%float) w0 output_image);
      reflexivity.
Defined.

End SolverMore.
